(** * btgym.datafeed.synthetic.stochastic: a shallow embedding

    The module synthesises price-like trajectories from draws of a
    pseudo-random source.  The embedding follows
    [btgym/datafeed/synthetic/stochastic.py] function by function:
    the Wiener and the Ornstein-Uhlenbeck trajectory, the three parameter
    samplers and the coupled-wave generator.

    Modelling conventions.
    - A Python/NumPy float is an exact real number ([R]); NaN, infinities and
      binary rounding error are outside the model.  [x ** .5] is [sqrt],
      [np.exp] is [exp].
    - The process-wide NumPy generator is an explicit state threaded through
      every call.  An exception leaves the generator in the state it had
      reached when the exception was raised, as in Python.
    - [assert] raises [AssertionError]; list indexing out of range raises
      [IndexError]; NumPy raises [ValueError] on a negative scale or a
      negative dimension.
    - Division by zero and the square root of a negative number have no
      counterpart in the model (the floats yield NaN or an infinity).  The
      statements about the coupled-wave generator therefore assume
      [ou_lambda <> 0], and those about the trajectory of the
      Ornstein-Uhlenbeck generator assume [l <> 0] and [0 <= dt], which
      keeps the divisor [2 * l] away from zero and the radicand
      [(1 - exp(-2*l*dt)) / (2*l)] non-negative. *)

From Stdlib Require Import String Reals Lra Lia ZArith Bool List.
Import ListNotations.
Open Scope R_scope.

(** ** Exceptions and results *)

Inductive exn : Type :=
| AssertionError
| ValueError
| IndexError.

Inductive result (A : Type) : Type :=
| Ok (a : A)
| Raise (e : exn).

Arguments Ok {A} a.
Arguments Raise {A} e.

(** ** Comparisons on floats, as booleans *)

Definition Rltb (x y : R) : bool := if Rlt_dec x y then true else false.
Definition Rleb (x y : R) : bool := if Rle_dec x y then true else false.
Definition Reqb (x y : R) : bool := if Req_dec_T x y then true else false.

Lemma Rltb_true x y : Rltb x y = true <-> x < y.
Proof. unfold Rltb; destruct (Rlt_dec x y); split; intros; try easy. Qed.

Lemma Rltb_false x y : Rltb x y = false <-> y <= x.
Proof.
  unfold Rltb; destruct (Rlt_dec x y); split; intros; try easy; lra.
Qed.

Lemma Rleb_true x y : Rleb x y = true <-> x <= y.
Proof. unfold Rleb; destruct (Rle_dec x y); split; intros; try easy. Qed.

Lemma Rleb_false x y : Rleb x y = false <-> y < x.
Proof.
  unfold Rleb; destruct (Rle_dec x y); split; intros; try easy; lra.
Qed.

(** ** The random source

    [np.random] is used through three primitives only.  Their common core is
    a generator state with a draw of a double in [[0, 1)] and a draw of a
    standard normal deviate. *)

Class RandomSource : Type := {
  rstate : Type;
  random_sample : rstate -> R * rstate;
  standard_normal : rstate -> R * rstate;
  random_sample_range : forall s, 0 <= fst (random_sample s) < 1
}.

(** A deterministic source that replays two given sequences; its state is
    the number of draws consumed so far. *)

Definition replay_source (g u : nat -> R) (Hu : forall n, 0 <= u n < 1)
  : RandomSource :=
  {| rstate := nat;
     random_sample := fun n => (u n, S n);
     standard_normal := fun n => (g n, S n);
     random_sample_range := Hu |}.

Lemma half_in_unit : forall n : nat, 0 <= / 2 < 1.
Proof. intros n; lra. Qed.

(** Every normal deviate is [0], every uniform double is [1/2]. *)
Definition counting_source : RandomSource :=
  replay_source (fun _ => 0) (fun _ => / 2) half_in_unit.

(** ** Python sequences *)

(** [xs[i]] with Python's treatment of negative indices. *)
Definition py_index (len : nat) (i : Z) : option nat :=
  let n := Z.of_nat len in
  let j := if (i <? 0)%Z then (i + n)%Z else i in
  if ((0 <=? j) && (j <? n))%Z then Some (Z.to_nat j) else None.

Fixpoint update (xs : list R) (k : nat) (v : R) : list R :=
  match xs, k with
  | [], _ => []
  | _ :: xs', O => v :: xs'
  | x :: xs', S k' => x :: update xs' k' v
  end.

(** [range(lo, hi)] *)
Definition range (lo hi : Z) : list Z :=
  map (fun k => (lo + Z.of_nat k)%Z) (seq 0 (Z.to_nat (hi - lo))).

(** A parameter given either as a number ([int], [float], [np.float64]) or
    as an iterable of numbers. *)
Inductive pyval : Type :=
| PyNum (x : R)
| PySeq (xs : list R).

(** [if type(p) in [int, float, np.float64]: p = [p, p] else: p = list(p)] *)
Definition as_interval (p : pyval) : list R :=
  match p with
  | PyNum x => [x; x]
  | PySeq xs => xs
  end.

(** A NumPy array of one or of two dimensions; the rows of a
    two-dimensional array are its slices along the last axis. *)
Inductive ndarray : Type :=
| Array1 (xs : list R)
| Array2 (rows : list (list R)).

(** [np.cumsum] along the last axis. *)
Fixpoint cumsum_from (acc : R) (r : list R) : list R :=
  match r with
  | [] => []
  | x :: r' => (acc + x) :: cumsum_from (acc + x) r'
  end.

Definition cumsum (r : list R) : list R :=
  match r with
  | [] => []
  | x :: r' => x :: cumsum_from x r'
  end.

(** A flat array in row-major order, cut into [m] rows of [n] cells. *)
Fixpoint rows_of (n m : nat) (flat : list R) : list (list R) :=
  match m with
  | O => []
  | S m' => firstn n flat :: rows_of n m' (skipn n flat)
  end.

(** ** Rounding: [np.around] *)

(** [np.rint]: the nearest integer, ties to the even one. *)
Definition rint (x : R) : Z :=
  let f := Int_part x in
  let r := x - IZR f in
  if Rlt_dec r (/ 2) then f
  else if Rlt_dec (/ 2) r then (f + 1)%Z
  else if Z.even f then f else (f + 1)%Z.

(** [np.around(x, decimals)]: scale by the power of ten, [rint], scale back;
    a negative [decimals] swaps the division and the multiplication. *)
Definition around (decimals : Z) (x : R) : R :=
  if (0 <=? decimals)%Z
  then IZR (rint (x * 10 ^ Z.to_nat decimals)) / 10 ^ Z.to_nat decimals
  else IZR (rint (x / 10 ^ Z.to_nat (- decimals))) * 10 ^ Z.to_nat (- decimals).

(** ** The generators *)

Section Generators.

Context {RS : RandomSource}.

(** Computations that draw from the generator and may raise. *)
Definition M (A : Type) : Type := rstate -> result A * rstate.

Definition ret {A} (a : A) : M A := fun s => (Ok a, s).

Definition raise {A} (e : exn) : M A := fun s => (Raise e, s).

Definition bind {A B} (m : M A) (k : A -> M B) : M B :=
  fun s =>
    match m s with
    | (Ok a, s') => k a s'
    | (Raise e, s') => (Raise e, s')
    end.

Notation "x <- m ;; k" := (bind m (fun x => k))
  (at level 61, m at next level, right associativity).

Definition py_assert (b : bool) : M unit :=
  if b then ret tt else raise AssertionError.

Definition getitem (xs : list R) (i : Z) : M R :=
  match py_index (length xs) i with
  | Some k => ret (nth k xs 0)
  | None => raise IndexError
  end.

Definition setitem (xs : list R) (i : Z) (v : R) : M (list R) :=
  match py_index (length xs) i with
  | Some k => ret (update xs k v)
  | None => raise IndexError
  end.

(** [for x in xs: st = body(x, st)] *)
Fixpoint for_each {X St} (xs : list X) (body : X -> St -> M St) (st : St)
  : M St :=
  match xs with
  | [] => ret st
  | x :: xs' => st' <- body x st ;; for_each xs' body st'
  end.

(** [np.zeros(n)] *)
Definition np_zeros (n : Z) : M (list R) :=
  if (n <? 0)%Z then raise ValueError else ret (repeat 0 (Z.to_nat n)).

(** [np.random.uniform(low, high)]: [low + (high - low) * random_sample()] *)
Definition uniform (low high : R) : M R :=
  fun s => let (u, s') := random_sample s in (Ok (low + (high - low) * u), s').

(** [np.random.normal(loc, scale)]: [loc + scale * standard_normal()],
    refused when [scale < 0]. *)
Definition normal (loc scale : R) : M R :=
  fun s =>
    if Rltb scale 0 then (Raise ValueError, s)
    else let (z, s') := standard_normal s in (Ok (loc + scale * z), s').

(** Modelled from the spec: [log_uniform] of [btgym/datafeed/synthetic/utils.py],
    which is imported by the module and is not part of the sources at hand:
    a uniform draw over [[log(low), log(high)]], exponentiated.  The callers
    pass the sample size [1]; the one value drawn is what is modelled. *)
Definition log_uniform (lo_hi : list R) : M R :=
  lo <- getitem lo_hi 0 ;;
  hi <- getitem lo_hi (-1) ;;
  u <- uniform (ln lo) (ln hi) ;;
  ret (exp u).

(** *** Wiener trajectory *)

(** [size] draws of a standard normal deviate, in order. *)
Fixpoint standard_normals (size : nat) : M (list R) :=
  match size with
  | O => ret []
  | S k =>
      z <- (fun s => let (z, s') := standard_normal s in (Ok z, s')) ;;
      zs <- standard_normals k ;;
      ret (z :: zs)
  end.

(** [scipy.stats.norm.rvs(size=shape, scale=scale)], with [loc = 0] and the
    process-wide NumPy generator: a negative scale is a domain error, a
    negative dimension is refused, a zero scale gives [loc * ones(shape)]
    without a draw, and otherwise every cell is [z * scale + loc] for a
    standard normal [z].  The array is given flat, in row-major order. *)
Definition norm_rvs (shape : list Z) (scale : R) : M (list R) :=
  if Rltb scale 0 then raise ValueError
  else if existsb (fun d => (d <? 0)%Z) shape then raise ValueError
  else
    let count := Z.to_nat (fold_right Z.mul 1%Z shape) in
    if Reqb scale 0 then ret (repeat (0 * 1) count)
    else
      zs <- standard_normals count ;;
      ret (map (fun z => z * scale + 0) zs).

(** [x0] is a number (the result has one dimension) or a sequence of
    numbers (one row per starting point); [dt ** .5] is [sqrt dt]. *)
Definition weiner_process_fn (num_points : Z) (delta : R) (x0 : pyval) (dt : R)
  : M ndarray :=
  match x0 with
  | PyNum a =>
      r <- norm_rvs [num_points] (delta * sqrt dt) ;;
      ret (Array1 (map (fun c => c + a) (cumsum r)))
  | PySeq xs =>
      r <- norm_rvs [Z.of_nat (length xs); num_points] (delta * sqrt dt) ;;
      let rows := rows_of (Z.to_nat num_points) (length xs) r in
      ret (Array2 (map (fun ra => map (fun c => c + snd ra) (cumsum (fst ra)))
                       (combine rows xs)))
  end.

(** *** Parameter samplers *)

(** [assert len(p) == 2 and 0 <= p[0] <= p[-1]] *)
Definition assert_nonneg_interval (p : list R) : M unit :=
  if negb (length p =? 2)%nat then raise AssertionError
  else
    a <- getitem p 0 ;;
    if negb (Rleb 0 a) then raise AssertionError
    else
      b <- getitem p (-1) ;;
      py_assert (Rleb a b).

(** [assert len(p) == 2 and 0 < p[0] <= p[-1]] *)
Definition assert_pos_interval (p : list R) : M unit :=
  if negb (length p =? 2)%nat then raise AssertionError
  else
    a <- getitem p 0 ;;
    if negb (Rltb 0 a) then raise AssertionError
    else
      b <- getitem p (-1) ;;
      py_assert (Rleb a b).

(** [assert len(p) == 2 and p[0] <= p[-1]] *)
Definition assert_interval (p : list R) : M unit :=
  if negb (length p =? 2)%nat then raise AssertionError
  else
    a <- getitem p 0 ;;
    b <- getitem p (-1) ;;
    py_assert (Rleb a b).

(** [np.random.uniform(low=p[0], high=p[-1])] *)
Definition uniform_of (p : list R) : M R :=
  a <- getitem p 0 ;;
  b <- getitem p (-1) ;;
  uniform a b.

Definition weiner_process_uniform_parameters_fn (delta x0 : pyval)
  : M (list (string * R)) :=
  let delta := as_interval delta in
  let x0 := as_interval x0 in
  _ <- assert_nonneg_interval delta ;;
  _ <- assert_nonneg_interval x0 ;;
  delta_value <- uniform_of delta ;;
  x0_value <- uniform_of x0 ;;
  ret [("delta"%string, delta_value); ("x0"%string, x0_value)].

(** The tail shared by the two Ornstein-Uhlenbeck samplers: the starting
    point is the sampled mean when [x0 is None], and is otherwise checked
    and sampled from its own interval. *)
Definition sample_x0 (x0 : option pyval) (mu_value : R) : M R :=
  match x0 with
  | None => ret mu_value
  | Some x0 =>
      let x0 := as_interval x0 in
      _ <- assert_interval x0 ;;
      uniform_of x0
  end.

Definition ornshtein_uhlenbeck_uniform_parameters_fn
    (mu l sigma : pyval) (x0 : option pyval) : M (list (string * R)) :=
  let l := as_interval l in
  let sigma := as_interval sigma in
  let mu := as_interval mu in
  _ <- assert_pos_interval l ;;
  _ <- assert_nonneg_interval sigma ;;
  _ <- assert_interval mu ;;
  l_value <- uniform_of l ;;
  sigma_value <- uniform_of sigma ;;
  mu_value <- uniform_of mu ;;
  x0_value <- sample_x0 x0 mu_value ;;
  ret [("l"%string, l_value); ("sigma"%string, sigma_value);
       ("mu"%string, mu_value); ("x0"%string, x0_value)].

Definition ornshtein_uhlenbeck_log_uniform_parameters_fn
    (mu l sigma : pyval) (x0 : option pyval) : M (list (string * R)) :=
  let l := as_interval l in
  let sigma := as_interval sigma in
  let mu := as_interval mu in
  _ <- assert_pos_interval l ;;
  _ <- assert_nonneg_interval sigma ;;
  _ <- assert_interval mu ;;
  l_value <- log_uniform l ;;
  sigma_value <- uniform_of sigma ;;
  mu_value <- uniform_of mu ;;
  x0_value <- sample_x0 x0 mu_value ;;
  ret [("l"%string, l_value); ("sigma"%string, sigma_value);
       ("mu"%string, mu_value); ("x0"%string, x0_value)].

(** *** Ornstein-Uhlenbeck trajectory *)

Definition ornshtein_uhlenbeck_process_fn
    (num_points : Z) (mu l sigma x0 dt : R) : M (list R) :=
  let n := num_points in
  x <- np_zeros n ;;
  x <- setitem x 0 x0 ;;
  for_each (range 1 n)
    (fun i x =>
       prev <- getitem x (i - 1) ;;
       z <- normal 0 1 ;;
       setitem x i
         (prev * exp (- l * dt) + mu * (1 - exp (- l * dt)) +
          sigma * sqrt ((1 - exp (-2 * l * dt)) / (2 * l)) * z))
    x.

(** *** Coupled-wave pair of OHLC trajectories *)

(** The eight history lists of the generator. *)
Record series : Type := mkSeries {
  x_mid1 : list R;
  x_low1 : list R;
  x_high1 : list R;
  x_last1 : list R;
  x_mid2 : list R;
  x_low2 : list R;
  x_high2 : list R;
  x_last2 : list R
}.

Definition s_mid (s_last sigma : R) : M R :=
  z <- normal 0 sigma ;;
  ret (s_last * (1 + z)).

(** [np.clip(v, mean1, None)] is the larger of [v] and [mean1]. *)
Definition h (sigma1 sigma2 mean1 mean2 : R) : M R :=
  a <- normal mean1 sigma1 ;;
  b <- normal mean2 sigma2 ;;
  ret (Rmax (sqrt (a ^ 2 + b ^ 2)) mean1).

Definition s_low (x_mid h_val : R) : R := x_mid - h_val / 2.

Definition s_high (x_mid h_val : R) : R := x_mid + h_val / 2.

Definition s_last (x_low x_high : R) : M R := uniform x_low x_high.

Definition delta_ou (ou_mu s l sigma : R) : M R :=
  z <- normal 0 1 ;;
  ret ((ou_mu - s) * (1 - exp (- l)) +
       sigma * sqrt ((1 - exp (-2 * l)) / (2 * l)) * z).

Section CoupledWave.

Variables (drift_sigma ou_sigma ou_lambda ou_mu : R).
Variables (spread_sigma_1 spread_sigma_2 spread_mean_1 spread_mean_2 : R).
Variable (bias : R).

(** The lists before the first iteration. *)
Definition seed : series :=
  {| x_mid1 := [bias];
     x_low1 := [bias];
     x_high1 := [bias];
     x_last1 := [bias + ou_mu / 2];
     x_mid2 := [bias];
     x_low2 := [bias];
     x_high2 := [bias];
     x_last2 := [bias - ou_mu / 2] |}.

(** One iteration of the generating loop. *)
Definition wave_step (st : series) : M series :=
  last1 <- getitem (x_last1 st) (-1) ;;
  last2 <- getitem (x_last2 st) (-1) ;;
  let x_last_ou := last1 - last2 in
  d_s <- delta_ou ou_mu x_last_ou ou_lambda ou_sigma ;;
  drift1 <- normal 0 drift_sigma ;;
  last1 <- getitem (x_last1 st) (-1) ;;
  let mid1 := x_mid1 st ++ [last1 * (1 + drift1) + d_s / 2] in
  last2 <- getitem (x_last2 st) (-1) ;;
  let mid2 := x_mid2 st ++ [last2 * (1 + drift1) - d_s / 2] in
  h1_val <- h spread_sigma_1 spread_sigma_2 spread_mean_1 spread_mean_2 ;;
  h2_val <- h spread_sigma_1 spread_sigma_2 spread_mean_1 spread_mean_2 ;;
  m1 <- getitem mid1 (-1) ;;
  let low1 := x_low1 st ++ [s_low m1 h1_val] in
  m1 <- getitem mid1 (-1) ;;
  let high1 := x_high1 st ++ [s_high m1 h1_val] in
  lo1 <- getitem low1 (-1) ;;
  hi1 <- getitem high1 (-1) ;;
  v1 <- s_last lo1 hi1 ;;
  let last1 := x_last1 st ++ [v1] in
  m2 <- getitem mid2 (-1) ;;
  let low2 := x_low2 st ++ [s_low m2 h2_val] in
  m2 <- getitem mid2 (-1) ;;
  let high2 := x_high2 st ++ [s_high m2 h2_val] in
  lo2 <- getitem low2 (-1) ;;
  hi2 <- getitem high2 (-1) ;;
  v2 <- s_last lo2 hi2 ;;
  let last2 := x_last2 st ++ [v2] in
  ret (mkSeries mid1 low1 high1 last1 mid2 low2 high2 last2).

(** [for i in range(num_points): ...], from the seed. *)
Definition wave_loop (num_points : Z) : M series :=
  for_each (range 0 num_points) (fun _ st => wave_step st) seed.

(** [np.asarray([[mid1, high1, low1, last1], [mid2, high2, low2, last2]])] *)
Definition stack (st : series) : list (list (list R)) :=
  [[x_mid1 st; x_high1 st; x_low1 st; x_last1 st];
   [x_mid2 st; x_high2 st; x_low2 st; x_last2 st]].

(** [x[:, :, 1:]] *)
Definition drop_first_column (x : list (list (list R))) : list (list (list R)) :=
  map (map (skipn 1)) x.

(** [np.around(x, decimals)] on a three-dimensional array. *)
Definition around3 (decimals : Z) (x : list (list (list R)))
  : list (list (list R)) :=
  map (map (map (around decimals))) x.

End CoupledWave.

Definition coupled_wave_pair_generator_fn
    (num_points : Z)
    (drift_sigma ou_sigma ou_lambda ou_mu : R)
    (spread_sigma_1 spread_sigma_2 spread_mean_1 spread_mean_2 : R)
    (bias : R) (keep_decimals : Z)
  : M (list (list (list R))) :=
  st <- wave_loop drift_sigma ou_sigma ou_lambda ou_mu
          spread_sigma_1 spread_sigma_2 spread_mean_1 spread_mean_2
          bias num_points ;;
  let x := drop_first_column (stack st) in
  ret (around3 keep_decimals x).

End Generators.

(** * Vocabulary of the properties

    What follows describes runs of the generators: which parameter
    specifications are well formed, where in the random source a draw is
    taken from, and the closed forms of the trajectories that the loops
    build. *)

(** ** Parameter specifications *)

(** An ordered pair whose lower bound satisfies the parameter's sign
    constraint. *)
Inductive well_formed (lo_ok : R -> Prop) : list R -> Prop :=
| wf_pair a b : lo_ok a -> a <= b -> well_formed lo_ok [a; b].

Definition nonneg (a : R) : Prop := 0 <= a.
Definition positive (a : R) : Prop := 0 < a.
Definition unconstrained (_ : R) : Prop := True.

Definition lower (p : pyval) : R := nth 0 (as_interval p) 0.
Definition upper (p : pyval) : R := last (as_interval p) 0.

(** The sampled value lies within the bounds of the specification, and is
    the number itself when the specification is a bare number. *)
Definition within (p : pyval) (v : R) : Prop :=
  lower p <= v <= upper p /\ (forall a, p = PyNum a -> v = a).

(** Some bound of the specification is negative. *)
Definition has_negative_bound (p : pyval) : Prop :=
  exists x, In x (as_interval p) /\ x < 0.

(** The three checks that open both Ornstein-Uhlenbeck samplers. *)
Definition ou_checks_pass (mu l sigma : pyval) : Prop :=
  well_formed positive (as_interval l) /\
  well_formed nonneg (as_interval sigma) /\
  well_formed unconstrained (as_interval mu).

(** Every scale handed to [np.random.normal] is non-negative. *)
Definition scales_ok (drift_sigma spread_sigma_1 spread_sigma_2 : R) : Prop :=
  0 <= drift_sigma /\ 0 <= spread_sigma_1 /\ 0 <= spread_sigma_2.

(** ** Positions in the random source *)

(** The generator state after [n] draws of a uniform double. *)
Definition after_samples {RS : RandomSource} (n : nat) (s : rstate) : rstate :=
  Nat.iter n (fun s => snd (random_sample s)) s.

(** The generator state after [n] draws of a standard normal deviate. *)
Definition after_normals {RS : RandomSource} (n : nat) (s : rstate) : rstate :=
  Nat.iter n (fun s => snd (standard_normal s)) s.

(** One iteration of the loop draws six normal deviates (the coupling noise,
    the drift, two for each spread) and then two uniform doubles (the two
    closing values). *)
Definition after_steps {RS : RandomSource} (k : nat) (s : rstate) : rstate :=
  Nat.iter k (fun s => after_samples 2 (after_normals 6 s)) s.

(** The [i]-th normal deviate drawn from state [s], counting from [0]. *)
Definition normal_at {RS : RandomSource} (s : rstate) (i : nat) : R :=
  fst (standard_normal (after_normals i s)).

(** The [i]-th uniform double drawn from state [s], counting from [0]. *)
Definition sample_at {RS : RandomSource} (s : rstate) (i : nat) : R :=
  fst (random_sample (after_samples i s)).

(** The value [np.random.uniform] makes of the double [u] for the bounds of
    the specification [p]. *)
Definition drawn_from (p : pyval) (u : R) : R :=
  lower p + (upper p - lower p) * u.

(** ** Reference trajectories *)

(** The trajectory without noise: the start decays geometrically to the
    mean. *)
Definition ou_mean_path (mu l x0 dt : R) (i : nat) : R :=
  mu + (x0 - mu) * exp (- l * dt) ^ i.

(** The values of one time index. *)
Record bar : Type := mkBar {
  b_mid1 : R;
  b_low1 : R;
  b_high1 : R;
  b_last1 : R;
  b_mid2 : R;
  b_low2 : R;
  b_high2 : R;
  b_last2 : R
}.

Section ReferenceTrajectories.

Context {RS : RandomSource}.

Section OrnsteinUhlenbeck.

Variables (mu l sigma x0 dt : R) (s : rstate).

(** The value the loop writes at index [k]. *)
Fixpoint ou_value (k : nat) : R :=
  match k with
  | O => x0
  | S k' =>
      ou_value k' * exp (- l * dt) + mu * (1 - exp (- l * dt)) +
      sigma * sqrt ((1 - exp (-2 * l * dt)) / (2 * l)) *
      (0 + 1 * fst (standard_normal (after_normals k' s)))
  end.

Definition ou_prefix (k : nat) : list R := map ou_value (seq 0 k).

(** The body of the loop of [ornshtein_uhlenbeck_process_fn]. *)
Definition ou_body (i : Z) (x : list R) : M (list R) :=
  bind (getitem x (i - 1)) (fun prev =>
  bind (normal 0 1) (fun z =>
  setitem x i
    (prev * exp (- l * dt) + mu * (1 - exp (- l * dt)) +
     sigma * sqrt ((1 - exp (-2 * l * dt)) / (2 * l)) * z))).

End OrnsteinUhlenbeck.

Section CoupledWaveReference.

Variables (drift_sigma ou_sigma ou_lambda ou_mu : R).
Variables (spread_sigma_1 spread_sigma_2 spread_mean_1 spread_mean_2 : R).
Variable (bias : R).
Variable (s0 : rstate).

(** The seed values, at index [0] of the history. *)
Definition seed_bar : bar :=
  mkBar bias bias bias (bias + ou_mu / 2) bias bias bias (bias - ou_mu / 2).

(** The spread drawn from the two deviates [z1] and [z2]. *)
Definition h_value (z1 z2 : R) : R :=
  Rmax (sqrt ((spread_mean_1 + spread_sigma_1 * z1) ^ 2 +
              (spread_mean_2 + spread_sigma_2 * z2) ^ 2)) spread_mean_1.

(** The values one iteration appends, from the previous closing values and
    the generator state at the start of the iteration. *)
Definition next_bar (prev : bar) (s : rstate) : bar :=
  let d_s :=
    (ou_mu - (b_last1 prev - b_last2 prev)) * (1 - exp (- ou_lambda)) +
    ou_sigma * sqrt ((1 - exp (-2 * ou_lambda)) / (2 * ou_lambda)) *
    (0 + 1 * normal_at s 0) in
  let drift1 := 0 + drift_sigma * normal_at s 1 in
  let mid1 := b_last1 prev * (1 + drift1) + d_s / 2 in
  let mid2 := b_last2 prev * (1 + drift1) - d_s / 2 in
  let h1 := h_value (normal_at s 2) (normal_at s 3) in
  let h2 := h_value (normal_at s 4) (normal_at s 5) in
  let low1 := s_low mid1 h1 in
  let high1 := s_high mid1 h1 in
  let low2 := s_low mid2 h2 in
  let high2 := s_high mid2 h2 in
  let u1 := fst (random_sample (after_normals 6 s)) in
  let u2 := fst (random_sample (after_samples 1 (after_normals 6 s))) in
  mkBar mid1 low1 high1 (low1 + (high1 - low1) * u1)
        mid2 low2 high2 (low2 + (high2 - low2) * u2).

Fixpoint wave_bar (k : nat) : bar :=
  match k with
  | O => seed_bar
  | S k' => next_bar (wave_bar k') (after_steps k' s0)
  end.

Definition column (f : bar -> R) (k : nat) : list R :=
  map (fun i => f (wave_bar i)) (seq 0 (S k)).

(** The history lists after [k] iterations. *)
Definition wave_series (k : nat) : series :=
  mkSeries (column b_mid1 k) (column b_low1 k) (column b_high1 k)
           (column b_last1 k) (column b_mid2 k) (column b_low2 k)
           (column b_high2 k) (column b_last2 k).

End CoupledWaveReference.

End ReferenceTrajectories.

(** ** Reading the returned array *)

(** The values [np.around] can return: whole multiples of the unit of the
    last kept place. *)
Definition rounded_to (decimals : Z) (v : R) : Prop :=
  exists m : Z,
    v = if (0 <=? decimals)%Z
        then IZR m / 10 ^ Z.to_nat decimals
        else IZR m * 10 ^ Z.to_nat (- decimals).

(** The array cell of asset [a], field [f] and time index [t]. *)
Definition cell (arr : list (list (list R))) (a f t : nat) : R :=
  nth t (nth f (nth a arr []) []) 0.

(** A three-dimensional array of shape [[d0, d1, d2]]. *)
Definition shape3 (arr : list (list (list R))) (d0 d1 d2 : nat) : Prop :=
  length arr = d0 /\
  Forall (fun a => length a = d1 /\ Forall (fun f => length f = d2) a) arr.

(** The bar at time index [t] of the returned array, with the field axis
    read in the order mid, high, low, last. *)
Definition cells_at (arr : list (list (list R))) (t : nat) : bar :=
  {| b_mid1 := cell arr 0 0 t;
     b_high1 := cell arr 0 1 t;
     b_low1 := cell arr 0 2 t;
     b_last1 := cell arr 0 3 t;
     b_mid2 := cell arr 1 0 t;
     b_high2 := cell arr 1 1 t;
     b_low2 := cell arr 1 2 t;
     b_last2 := cell arr 1 3 t |}.

(** The bar at index [i] of the history lists. *)
Definition history_at (st : series) (i : nat) : bar :=
  {| b_mid1 := nth i (x_mid1 st) 0;
     b_high1 := nth i (x_high1 st) 0;
     b_low1 := nth i (x_low1 st) 0;
     b_last1 := nth i (x_last1 st) 0;
     b_mid2 := nth i (x_mid2 st) 0;
     b_high2 := nth i (x_high2 st) 0;
     b_low2 := nth i (x_low2 st) 0;
     b_last2 := nth i (x_last2 st) 0 |}.

Definition map_bar (g : R -> R) (b : bar) : bar :=
  {| b_mid1 := g (b_mid1 b);
     b_high1 := g (b_high1 b);
     b_low1 := g (b_low1 b);
     b_last1 := g (b_last1 b);
     b_mid2 := g (b_mid2 b);
     b_high2 := g (b_high2 b);
     b_low2 := g (b_low2 b);
     b_last2 := g (b_last2 b) |}.

Definition bar_values (b : bar) : list R :=
  [b_mid1 b; b_high1 b; b_low1 b; b_last1 b;
   b_mid2 b; b_high2 b; b_low2 b; b_last2 b].

(** * Properties *)

(** ** Well-formed parameter specifications *)

Lemma well_formed_dec lo_ok (lo_dec : forall a, {lo_ok a} + {~ lo_ok a}) p :
  {well_formed lo_ok p} + {~ well_formed lo_ok p}.
Proof.
  destruct p as [|a [|b [|c q]]];
    try (right; intros H; inversion H; fail).
  destruct (lo_dec a) as [Ha|Ha]; [|right; intros H; inversion H; tauto].
  destruct (Rle_dec a b) as [Hab|Hab]; [|right; intros H; inversion H; tauto].
  left; now constructor.
Qed.

Section SamplerFacts.

Context {RS : RandomSource}.

Lemma bind_ok {A B} (m : M A) (k : A -> M B) s a s' :
  m s = (Ok a, s') -> bind m k s = k a s'.
Proof. unfold bind; intros ->; reflexivity. Qed.

Lemma bind_raise {A B} (m : M A) (k : A -> M B) s e s' :
  m s = (Raise e, s') -> bind m k s = (Raise e, s').
Proof. unfold bind; intros ->; reflexivity. Qed.

Lemma getitem_pair_lo a b : getitem [a; b] 0 = ret a.
Proof. reflexivity. Qed.

Lemma getitem_pair_hi a b : getitem [a; b] (-1) = ret b.
Proof. reflexivity. Qed.

Ltac pair_items :=
  unfold bind, py_assert;
  rewrite ?getitem_pair_lo, ?getitem_pair_hi;
  unfold ret; cbn [length Nat.eqb negb].

Lemma uniform_eq low high s :
  uniform low high s =
  (Ok (low + (high - low) * fst (random_sample s)), snd (random_sample s)).
Proof. unfold uniform; destruct (random_sample s); reflexivity. Qed.

Lemma uniform_of_pair a b s :
  uniform_of [a; b] s =
  (Ok (a + (b - a) * fst (random_sample s)), snd (random_sample s)).
Proof. unfold uniform_of; pair_items; apply uniform_eq. Qed.

Lemma uniform_value_bounds a b u :
  a <= b -> 0 <= u < 1 -> a <= a + (b - a) * u <= b.
Proof. intros Hab [Hu0 Hu1]; split; nra. Qed.

(** The three assertions accept exactly the well-formed specifications, and
    never touch the generator. *)

Lemma assert_nonneg_interval_ok p s :
  well_formed nonneg p -> assert_nonneg_interval p s = (Ok tt, s).
Proof.
  intros [a b Ha Hab]; unfold assert_nonneg_interval; pair_items.
  rewrite (proj2 (Rleb_true 0 a) Ha); cbn [negb].
  rewrite (proj2 (Rleb_true a b) Hab); reflexivity.
Qed.

Lemma assert_nonneg_interval_raise p s :
  ~ well_formed nonneg p ->
  assert_nonneg_interval p s = (Raise AssertionError, s).
Proof.
  intros Hp; unfold assert_nonneg_interval.
  destruct p as [|a [|b [|c q]]]; try reflexivity.
  pair_items.
  destruct (Rleb 0 a) eqn:Ha; [|reflexivity]; cbn [negb].
  destruct (Rleb a b) eqn:Hab; [|reflexivity].
  exfalso; apply Hp; constructor; [apply Rleb_true, Ha | apply Rleb_true, Hab].
Qed.

Lemma assert_pos_interval_ok p s :
  well_formed positive p -> assert_pos_interval p s = (Ok tt, s).
Proof.
  intros [a b Ha Hab]; unfold assert_pos_interval; pair_items.
  rewrite (proj2 (Rltb_true 0 a) Ha); cbn [negb].
  rewrite (proj2 (Rleb_true a b) Hab); reflexivity.
Qed.

Lemma assert_pos_interval_raise p s :
  ~ well_formed positive p ->
  assert_pos_interval p s = (Raise AssertionError, s).
Proof.
  intros Hp; unfold assert_pos_interval.
  destruct p as [|a [|b [|c q]]]; try reflexivity.
  pair_items.
  destruct (Rltb 0 a) eqn:Ha; [|reflexivity]; cbn [negb].
  destruct (Rleb a b) eqn:Hab; [|reflexivity].
  exfalso; apply Hp; constructor; [apply Rltb_true, Ha | apply Rleb_true, Hab].
Qed.

Lemma assert_interval_ok p s :
  well_formed unconstrained p -> assert_interval p s = (Ok tt, s).
Proof.
  intros [a b Ha Hab]; unfold assert_interval; pair_items.
  rewrite (proj2 (Rleb_true a b) Hab); reflexivity.
Qed.

Lemma assert_interval_raise p s :
  ~ well_formed unconstrained p ->
  assert_interval p s = (Raise AssertionError, s).
Proof.
  intros Hp; unfold assert_interval.
  destruct p as [|a [|b [|c q]]]; try reflexivity.
  pair_items.
  destruct (Rleb a b) eqn:Hab; [|reflexivity].
  exfalso; apply Hp; constructor; [exact I | apply Rleb_true, Hab].
Qed.

Lemma well_formed_nonneg_elements p x :
  well_formed nonneg p -> In x p -> 0 <= x.
Proof.
  intros [a b Ha Hab] [<-|[<-|[]]]; unfold nonneg in Ha; lra.
Qed.

(** What a sampled value looks like for a well-formed specification. *)
Lemma within_sample (P : R -> Prop) p u :
  well_formed P (as_interval p) -> 0 <= u < 1 ->
  within p (lower p + (upper p - lower p) * u).
Proof.
  intros Hwf Hu; unfold within, lower, upper.
  inversion Hwf as [a b Ha Hab Heq]; cbn.
  split; [now apply uniform_value_bounds|].
  intros c ->; cbn in Heq; injection Heq as <- <-; lra.
Qed.

Lemma uniform_of_well_formed (P : R -> Prop) p s :
  well_formed P (as_interval p) ->
  uniform_of (as_interval p) s =
  (Ok (lower p + (upper p - lower p) * fst (random_sample s)),
   snd (random_sample s)).
Proof.
  intros Hwf; unfold lower, upper.
  inversion Hwf as [a b Ha Hab Heq]; cbn; apply uniform_of_pair.
Qed.

End SamplerFacts.

(** ** The parameter samplers *)

Section SamplerClaims.

Context {RS : RandomSource}.

Lemma weiner_parameters_ok delta x0 s :
  well_formed nonneg (as_interval delta) ->
  well_formed nonneg (as_interval x0) ->
  weiner_process_uniform_parameters_fn delta x0 s =
  (Ok [("delta"%string,
        lower delta + (upper delta - lower delta) * fst (random_sample s));
       ("x0"%string,
        lower x0 + (upper x0 - lower x0) *
                   fst (random_sample (after_samples 1 s)))],
   after_samples 2 s).
Proof.
  intros Hd Hx; unfold weiner_process_uniform_parameters_fn.
  rewrite (bind_ok _ _ _ _ _ (assert_nonneg_interval_ok _ s Hd)).
  rewrite (bind_ok _ _ _ _ _ (assert_nonneg_interval_ok _ s Hx)).
  rewrite (bind_ok _ _ _ _ _ (uniform_of_well_formed _ _ s Hd)).
  rewrite (bind_ok _ _ _ _ _ (uniform_of_well_formed _ _ _ Hx)).
  reflexivity.
Qed.

Lemma weiner_parameters_raise delta x0 s :
  ~ (well_formed nonneg (as_interval delta) /\
     well_formed nonneg (as_interval x0)) ->
  weiner_process_uniform_parameters_fn delta x0 s = (Raise AssertionError, s).
Proof.
  intros Hbad; unfold weiner_process_uniform_parameters_fn.
  destruct (well_formed_dec nonneg (Rle_dec 0) (as_interval delta)) as [Hd|Hd].
  - rewrite (bind_ok _ _ _ _ _ (assert_nonneg_interval_ok _ s Hd)).
    apply bind_raise, assert_nonneg_interval_raise; tauto.
  - apply bind_raise, assert_nonneg_interval_raise, Hd.
Qed.

Lemma ou_checks_raise {A} mu l sigma (k : M A) s :
  ~ ou_checks_pass mu l sigma ->
  bind (assert_pos_interval (as_interval l)) (fun _ =>
    bind (assert_nonneg_interval (as_interval sigma)) (fun _ =>
      bind (assert_interval (as_interval mu)) (fun _ => k))) s =
  (Raise AssertionError, s).
Proof.
  intros Hbad.
  destruct (well_formed_dec positive (Rlt_dec 0) (as_interval l)) as [Hl|Hl];
    [|apply bind_raise, assert_pos_interval_raise, Hl].
  rewrite (bind_ok _ _ _ _ _ (assert_pos_interval_ok _ s Hl)).
  destruct (well_formed_dec nonneg (Rle_dec 0) (as_interval sigma)) as [Hs|Hs];
    [|apply bind_raise, assert_nonneg_interval_raise, Hs].
  rewrite (bind_ok _ _ _ _ _ (assert_nonneg_interval_ok _ s Hs)).
  apply bind_raise, assert_interval_raise.
  unfold ou_checks_pass in Hbad; tauto.
Qed.

Lemma ou_checks_ok {A} mu l sigma (k : M A) s :
  ou_checks_pass mu l sigma ->
  bind (assert_pos_interval (as_interval l)) (fun _ =>
    bind (assert_nonneg_interval (as_interval sigma)) (fun _ =>
      bind (assert_interval (as_interval mu)) (fun _ => k))) s = k s.
Proof.
  intros (Hl & Hs & Hm).
  rewrite (bind_ok _ _ _ _ _ (assert_pos_interval_ok _ s Hl)).
  rewrite (bind_ok _ _ _ _ _ (assert_nonneg_interval_ok _ s Hs)).
  rewrite (bind_ok _ _ _ _ _ (assert_interval_ok _ s Hm)).
  reflexivity.
Qed.

Lemma sample_x0_ok x0 mv s :
  (forall p, x0 = Some p -> well_formed unconstrained (as_interval p)) ->
  exists xv s',
    sample_x0 x0 mv s = (Ok xv, s') /\
    match x0 with
    | None => xv = mv /\ s' = s
    | Some p => within p xv /\ s' = after_samples 1 s
    end.
Proof.
  intros Hx; destruct x0 as [p|]; cbn [sample_x0].
  - specialize (Hx p eq_refl).
    eexists; eexists; split.
    + rewrite (bind_ok _ _ _ _ _ (assert_interval_ok _ s Hx)).
      apply (uniform_of_well_formed _ _ _ Hx).
    + split; [|reflexivity].
      apply (within_sample _ _ _ Hx), random_sample_range.
  - exists mv, s; repeat split.
Qed.

Lemma sample_x0_raise p mv s :
  ~ well_formed unconstrained (as_interval p) ->
  sample_x0 (Some p) mv s = (Raise AssertionError, s).
Proof.
  intros Hp; cbn [sample_x0]; apply bind_raise, assert_interval_raise, Hp.
Qed.

Lemma ou_uniform_parameters_ok mu l sigma x0 s :
  ou_checks_pass mu l sigma ->
  (forall p, x0 = Some p -> well_formed unconstrained (as_interval p)) ->
  exists lv sv mv xv s',
    ornshtein_uhlenbeck_uniform_parameters_fn mu l sigma x0 s =
    (Ok [("l"%string, lv); ("sigma"%string, sv);
         ("mu"%string, mv); ("x0"%string, xv)], s') /\
    within l lv /\ within sigma sv /\ within mu mv /\
    match x0 with
    | None => xv = mv
    | Some p => within p xv
    end.
Proof.
  intros Hc Hx; unfold ornshtein_uhlenbeck_uniform_parameters_fn.
  rewrite (ou_checks_ok _ _ _ _ _ Hc).
  destruct Hc as (Hl & Hs & Hm).
  rewrite (bind_ok _ _ _ _ _ (uniform_of_well_formed _ _ _ Hl)).
  rewrite (bind_ok _ _ _ _ _ (uniform_of_well_formed _ _ _ Hs)).
  rewrite (bind_ok _ _ _ _ _ (uniform_of_well_formed _ _ _ Hm)).
  match goal with
  | |- context [sample_x0 x0 ?mv] =>
      destruct (sample_x0_ok x0 mv (after_samples 3 s) Hx)
        as (xv & s' & Hrun & Hxv)
  end.
  cbn [after_samples Nat.iter] in Hrun.
  rewrite (bind_ok _ _ _ _ _ Hrun).
  do 5 eexists; split; [reflexivity|].
  repeat split;
    try (eapply within_sample; [eassumption | apply random_sample_range]).
  destruct x0; tauto.
Qed.

Lemma ou_uniform_parameters_late_raise mu l sigma p s :
  ou_checks_pass mu l sigma ->
  ~ well_formed unconstrained (as_interval p) ->
  ornshtein_uhlenbeck_uniform_parameters_fn mu l sigma (Some p) s =
  (Raise AssertionError, after_samples 3 s).
Proof.
  intros Hc Hp; unfold ornshtein_uhlenbeck_uniform_parameters_fn.
  rewrite (ou_checks_ok _ _ _ _ _ Hc).
  destruct Hc as (Hl & Hs & Hm).
  rewrite (bind_ok _ _ _ _ _ (uniform_of_well_formed _ _ _ Hl)).
  rewrite (bind_ok _ _ _ _ _ (uniform_of_well_formed _ _ _ Hs)).
  rewrite (bind_ok _ _ _ _ _ (uniform_of_well_formed _ _ _ Hm)).
  apply bind_raise, sample_x0_raise, Hp.
Qed.

End SamplerClaims.

Section SamplerTheorems.

Context {RS : RandomSource}.

Lemma ou_log_uniform_parameters_early_raise mu l sigma x0 s :
  ~ ou_checks_pass mu l sigma ->
  ornshtein_uhlenbeck_log_uniform_parameters_fn mu l sigma x0 s =
  (Raise AssertionError, s).
Proof.
  intros Hbad; unfold ornshtein_uhlenbeck_log_uniform_parameters_fn.
  now apply ou_checks_raise.
Qed.

Lemma ou_uniform_parameters_early_raise mu l sigma x0 s :
  ~ ou_checks_pass mu l sigma ->
  ornshtein_uhlenbeck_uniform_parameters_fn mu l sigma x0 s =
  (Raise AssertionError, s).
Proof.
  intros Hbad; unfold ornshtein_uhlenbeck_uniform_parameters_fn.
  now apply ou_checks_raise.
Qed.

(** C7, as amended.  A malformed [delta] or [x0] of the Wiener sampler, and a
    malformed [l], [sigma] or [mu] of either Ornstein-Uhlenbeck sampler, raise
    [AssertionError] with the random source exactly as it was: no draw has
    been consumed. *)
Theorem malformed_specification_raises_before_any_draw :
  (forall delta x0 s,
      ~ (well_formed nonneg (as_interval delta) /\
         well_formed nonneg (as_interval x0)) ->
      weiner_process_uniform_parameters_fn delta x0 s =
      (Raise AssertionError, s)) /\
  (forall mu l sigma x0 s,
      ~ ou_checks_pass mu l sigma ->
      ornshtein_uhlenbeck_uniform_parameters_fn mu l sigma x0 s =
      (Raise AssertionError, s) /\
      ornshtein_uhlenbeck_log_uniform_parameters_fn mu l sigma x0 s =
      (Raise AssertionError, s)).
Proof.
  split.
  - intros delta x0 s Hbad; now apply weiner_parameters_raise.
  - intros mu l sigma x0 s Hbad; split.
    + now apply ou_uniform_parameters_early_raise.
    + now apply ou_log_uniform_parameters_early_raise.
Qed.

(** C8.  For well-formed specifications the uniform samplers return, and
    every sampled value lies within the bounds of its specification; a bare
    number is returned unchanged.  With [x0 = None] the Ornstein-Uhlenbeck
    sampler starts at the sampled mean. *)
Theorem uniform_samplers_within_bounds :
  (forall delta x0 s,
      well_formed nonneg (as_interval delta) ->
      well_formed nonneg (as_interval x0) ->
      exists dv xv s',
        weiner_process_uniform_parameters_fn delta x0 s =
        (Ok [("delta"%string, dv); ("x0"%string, xv)], s') /\
        within delta dv /\ within x0 xv) /\
  (forall mu l sigma x0 s,
      ou_checks_pass mu l sigma ->
      (forall p, x0 = Some p -> well_formed unconstrained (as_interval p)) ->
      exists lv sv mv xv s',
        ornshtein_uhlenbeck_uniform_parameters_fn mu l sigma x0 s =
        (Ok [("l"%string, lv); ("sigma"%string, sv);
             ("mu"%string, mv); ("x0"%string, xv)], s') /\
        within l lv /\ within sigma sv /\ within mu mv /\
        match x0 with
        | None => xv = mv
        | Some p => within p xv
        end).
Proof.
  split.
  - intros delta x0 s Hd Hx.
    do 3 eexists; split; [now apply weiner_parameters_ok|].
    split; eapply within_sample; eauto using random_sample_range.
  - intros mu l sigma x0 s Hc Hx; now apply ou_uniform_parameters_ok.
Qed.

(** C10.  Whatever [delta] is, an [x0] with a negative bound makes the Wiener
    sampler raise [AssertionError]; nothing is sampled and nothing is
    returned. *)
Theorem weiner_rejects_negative_x0 delta x0 s :
  has_negative_bound x0 ->
  weiner_process_uniform_parameters_fn delta x0 s = (Raise AssertionError, s).
Proof.
  intros (x & Hin & Hneg).
  apply weiner_parameters_raise; intros [_ Hx].
  pose proof (well_formed_nonneg_elements _ _ Hx Hin); lra.
Qed.

End SamplerTheorems.

(** *** Concrete runs of the samplers *)

Lemma malformed_specification_raises_witness :
  weiner_process_uniform_parameters_fn (RS := counting_source)
    (PySeq [2; 1]) (PyNum 0) 0%nat = (Raise AssertionError, 0%nat) /\
  ornshtein_uhlenbeck_uniform_parameters_fn (RS := counting_source)
    (PyNum 0) (PySeq [0; 1]) (PyNum 1) None 0%nat =
  (Raise AssertionError, 0%nat).
Proof.
  split.
  - apply (proj1 (@malformed_specification_raises_before_any_draw
                    counting_source)).
    intros H; destruct H as [H _]; inversion H; lra.
  - apply (proj2 (@malformed_specification_raises_before_any_draw
                    counting_source)).
    intros H; destruct H as [H _]; inversion H; unfold positive in *; lra.
Defined.

(** C7, the counterexample.  A reversed [x0] interval is detected by the
    Ornstein-Uhlenbeck sampler only after [l], [sigma] and [mu] were sampled:
    the source has moved on by three draws when the assertion fails. *)
Lemma ou_x0_raises_after_three_draws :
  ornshtein_uhlenbeck_uniform_parameters_fn (RS := counting_source)
    (PyNum 0) (PyNum 1) (PyNum 0) (Some (PySeq [1; 0])) 0%nat =
  (Raise AssertionError, 3%nat) /\
  3%nat <> 0%nat.
Proof.
  split; [|discriminate].
  apply (@ou_uniform_parameters_late_raise counting_source).
  - unfold ou_checks_pass; split; [|split]; constructor;
      unfold positive, nonneg, unconstrained; (lra || exact I).
  - intros H; inversion H; lra.
Qed.

Lemma uniform_samplers_within_bounds_witness :
  exists dv xv s',
    weiner_process_uniform_parameters_fn (RS := counting_source)
      (PySeq [1; 2]) (PyNum 3) 0%nat =
    (Ok [("delta"%string, dv); ("x0"%string, xv)], s') /\
    within (PySeq [1; 2]) dv /\ within (PyNum 3) xv.
Proof.
  apply (proj1 (@uniform_samplers_within_bounds counting_source));
    constructor; unfold nonneg; lra.
Defined.

Lemma weiner_rejects_negative_x0_witness :
  weiner_process_uniform_parameters_fn (RS := counting_source)
    (PyNum 1) (PySeq [-1; 2]) 0%nat = (Raise AssertionError, 0%nat).
Proof.
  apply (@weiner_rejects_negative_x0 counting_source).
  exists (-1); split; [left; reflexivity | lra].
Defined.

(** ** The Ornstein-Uhlenbeck trajectory *)

Lemma py_index_nat len k :
  (k < len)%nat -> py_index len (Z.of_nat k) = Some k.
Proof.
  intros Hk; unfold py_index.
  destruct (Z.ltb_spec (Z.of_nat k) 0); [lia|].
  destruct (Z.leb_spec 0 (Z.of_nat k)); [|lia].
  destruct (Z.ltb_spec (Z.of_nat k) (Z.of_nat len)); [|lia].
  cbn [andb]; now rewrite Nat2Z.id.
Qed.

Lemma py_index_last len : py_index (S len) (-1) = Some len.
Proof.
  unfold py_index.
  destruct (Z.ltb_spec (-1) 0); [|lia].
  destruct (Z.leb_spec 0 (-1 + Z.of_nat (S len))); [|lia].
  destruct (Z.ltb_spec (-1 + Z.of_nat (S len)) (Z.of_nat (S len))); [|lia].
  cbn [andb]; f_equal; lia.
Qed.

Lemma py_index_empty i : py_index 0 i = None.
Proof.
  unfold py_index; cbn [Z.of_nat].
  destruct (Z.ltb_spec i 0).
  - destruct (Z.leb_spec 0 (i + 0)); [lia | reflexivity].
  - destruct (Z.leb_spec 0 i); [|lia].
    destruct (Z.ltb_spec i 0); [lia | reflexivity].
Qed.

Lemma update_at_prefix pre k y ys v :
  length pre = k -> update (pre ++ y :: ys) k v = pre ++ v :: ys.
Proof.
  intros <-; induction pre as [|x pre IH]; cbn; [reflexivity | now rewrite IH].
Qed.

Lemma nth_at_prefix (pre : list R) k v ys d :
  length pre = k -> nth k (pre ++ v :: ys) d = v.
Proof.
  intros <-; induction pre as [|x pre IH]; cbn; [reflexivity | exact IH].
Qed.

Section ProcessFacts.

Context {RS : RandomSource}.

Lemma normal_eq loc scale s :
  0 <= scale ->
  normal loc scale s =
  (Ok (loc + scale * fst (standard_normal s)), snd (standard_normal s)).
Proof.
  intros Hs; unfold normal.
  rewrite (proj2 (Rltb_false scale 0) Hs).
  destruct (standard_normal s); reflexivity.
Qed.

Lemma normal_negative_scale loc scale s :
  scale < 0 -> normal loc scale s = (Raise ValueError, s).
Proof.
  intros Hs; unfold normal; now rewrite (proj2 (Rltb_true scale 0) Hs).
Qed.

Lemma getitem_nat xs k s :
  (k < length xs)%nat -> getitem xs (Z.of_nat k) s = (Ok (nth k xs 0), s).
Proof. intros Hk; unfold getitem; now rewrite py_index_nat. Qed.

Lemma getitem_last xs v s : getitem (xs ++ [v]) (-1) s = (Ok v, s).
Proof.
  unfold getitem; rewrite length_app, Nat.add_1_r, py_index_last.
  now rewrite (nth_at_prefix xs).
Qed.

Lemma setitem_nat xs k v s :
  (k < length xs)%nat -> setitem xs (Z.of_nat k) v s = (Ok (update xs k v), s).
Proof. intros Hk; unfold setitem; now rewrite py_index_nat. Qed.

Lemma setitem_empty i v s : setitem [] i v s = (Raise IndexError, s).
Proof. unfold setitem; cbn [length]; now rewrite py_index_empty. Qed.

Section Trajectory.

Variables (mu l sigma x0 dt : R) (s : rstate).

Local Abbreviation value_at := (ou_value mu l sigma x0 dt s).
Local Abbreviation prefix := (ou_prefix mu l sigma x0 dt s).
Local Abbreviation body := (ou_body mu l sigma dt).

Lemma ou_prefix_length k : length (prefix k) = k.
Proof. unfold ou_prefix; now rewrite length_map, length_seq. Qed.

Lemma ou_prefix_S k : prefix (S k) = prefix k ++ [value_at k].
Proof. unfold ou_prefix; now rewrite seq_S, map_app. Qed.

Lemma ou_prefix_nth k i : (i < k)%nat -> nth i (prefix k) 0 = value_at i.
Proof.
  intros Hi; unfold ou_prefix.
  rewrite (nth_indep _ 0 (value_at 0)) by now rewrite length_map, length_seq.
  now rewrite map_nth, seq_nth.
Qed.

(** One iteration fills the next cell and consumes one normal deviate. *)
Lemma ou_body_step j r :
  body (1 + Z.of_nat j) (prefix (S j) ++ repeat 0 (S r))
          (after_normals j s) =
  (Ok (prefix (S (S j)) ++ repeat 0 r), after_normals (S j) s).
Proof.
  unfold ou_body.
  replace (1 + Z.of_nat j - 1)%Z with (Z.of_nat j) by lia.
  erewrite bind_ok; cycle 1.
  { apply getitem_nat.
    rewrite length_app, ou_prefix_length, repeat_length; lia. }
  erewrite bind_ok; cycle 1.
  { apply normal_eq; lra. }
  replace (1 + Z.of_nat j)%Z with (Z.of_nat (S j)) by lia.
  rewrite setitem_nat
    by (rewrite length_app, ou_prefix_length, repeat_length; lia).
  cbn [repeat].
  rewrite (update_at_prefix _ (S j)) by apply ou_prefix_length.
  rewrite app_nth1 by (rewrite ou_prefix_length; lia).
  rewrite ou_prefix_nth by lia.
  rewrite (ou_prefix_S (S j)), <- app_assoc.
  reflexivity.
Qed.

Lemma ou_loop r : forall j,
  for_each (map (fun k => (1 + Z.of_nat k)%Z) (seq j r)) body
           (prefix (S j) ++ repeat 0 r) (after_normals j s) =
  (Ok (prefix (S j + r)), after_normals (j + r) s).
Proof.
  induction r as [|r IH]; intros j.
  - cbn [seq map for_each repeat]; rewrite app_nil_r, !Nat.add_0_r.
    reflexivity.
  - cbn [seq map for_each].
    rewrite (bind_ok _ _ _ _ _ (ou_body_step j r)).
    rewrite IH.
    replace (S j + S r)%nat with (S (S j) + r)%nat by lia.
    replace (j + S r)%nat with (S j + r)%nat by lia.
    reflexivity.
Qed.

Lemma ou_process_run m :
  ornshtein_uhlenbeck_process_fn (Z.of_nat (S m)) mu l sigma x0 dt s =
  (Ok (prefix (S m)), after_normals m s).
Proof.
  unfold ornshtein_uhlenbeck_process_fn.
  erewrite bind_ok; cycle 1.
  { unfold np_zeros.
    destruct (Z.ltb_spec (Z.of_nat (S m)) 0); [lia|].
    rewrite Nat2Z.id; reflexivity. }
  erewrite bind_ok; cycle 1.
  { apply (setitem_nat _ 0); cbn [repeat length]; lia. }
  cbn [repeat update]; unfold range.
  replace (Z.to_nat (Z.of_nat (S m) - 1)) with m by lia.
  exact (ou_loop m 0%nat).
Qed.

End Trajectory.

End ProcessFacts.

Section ProcessTheorems.

Context {RS : RandomSource}.

Lemma ou_value_noise_free mu l x0 dt s k :
  ou_value mu l 0 x0 dt s k = ou_mean_path mu l x0 dt k.
Proof.
  unfold ou_mean_path; induction k as [|k IH]; cbn [ou_value pow]; [ring|].
  rewrite IH; ring.
Qed.

Lemma ou_mean_path_converges mu l x0 dt :
  0 < l * dt -> Un_cv (ou_mean_path mu l x0 dt) mu.
Proof.
  intros Hpos eps Heps; unfold ou_mean_path, R_dist.
  set (q := exp (- l * dt)).
  assert (Hq : Rabs q < 1).
  { unfold q; rewrite Rabs_pos_eq by (left; apply exp_pos).
    rewrite <- exp_0; apply exp_increasing; lra. }
  destruct (Req_dec x0 mu) as [->|Hne].
  - exists 0%nat; intros n _.
    replace (mu + (mu - mu) * q ^ n - mu) with 0 by ring.
    now rewrite Rabs_R0.
  - assert (Hd : 0 < Rabs (x0 - mu)) by (apply Rabs_pos_lt; lra).
    destruct (pow_lt_1_zero q Hq (eps / Rabs (x0 - mu))) as [N HN].
    { now apply Rdiv_lt_0_compat. }
    exists N; intros n Hn.
    replace (mu + (x0 - mu) * q ^ n - mu) with ((x0 - mu) * q ^ n) by ring.
    rewrite Rabs_mult.
    specialize (HN n Hn).
    apply (Rmult_lt_compat_l (Rabs (x0 - mu))) in HN; [|exact Hd].
    replace (Rabs (x0 - mu) * (eps / Rabs (x0 - mu))) with eps in HN
      by (field; lra).
    exact HN.
Qed.

(** C6.  For [num_points >= 1], a rate [l <> 0] and a time step
    [dt >= 0], the call returns an array of [num_points] cells that starts
    at [x0]; every later cell is obtained from the one before it by the
    Ornstein-Uhlenbeck update with a standard normal deviate drawn for that
    step alone.  With [sigma = 0] the cells are the noise-free path,
    whatever the random source, and for [l * dt > 0] that path converges to
    [mu]. *)
Theorem ou_process_recurrence num_points mu l sigma x0 dt s :
  (1 <= num_points)%Z ->
  l <> 0 -> 0 <= dt ->
  exists x,
    ornshtein_uhlenbeck_process_fn num_points mu l sigma x0 dt s =
    (Ok x, after_normals (Z.to_nat num_points - 1) s) /\
    length x = Z.to_nat num_points /\
    nth 0 x 0 = x0 /\
    (forall i, (1 <= i < Z.to_nat num_points)%nat ->
       nth i x 0 =
       nth (i - 1) x 0 * exp (- l * dt) + mu * (1 - exp (- l * dt)) +
       sigma * sqrt ((1 - exp (-2 * l * dt)) / (2 * l)) *
       fst (standard_normal (after_normals (i - 1) s))) /\
    (sigma = 0 ->
     forall i, (i < Z.to_nat num_points)%nat ->
       nth i x 0 = ou_mean_path mu l x0 dt i) /\
    (0 < l * dt -> Un_cv (ou_mean_path mu l x0 dt) mu).
Proof.
  intros Hn _ _.
  destruct (Z.to_nat num_points) as [|m] eqn:Hm; [lia|].
  replace num_points with (Z.of_nat (S m)) by lia.
  exists (ou_prefix mu l sigma x0 dt s (S m)).
  replace (S m - 1)%nat with m by lia.
  split; [apply ou_process_run|].
  split; [apply ou_prefix_length|].
  split; [rewrite ou_prefix_nth by lia; reflexivity|].
  split; [|split].
  - intros i Hi.
    rewrite !ou_prefix_nth by lia.
    destruct i as [|i]; [lia|].
    replace (S i - 1)%nat with i by lia.
    cbn [ou_value]; ring.
  - intros -> i Hi.
    rewrite ou_prefix_nth by lia.
    apply ou_value_noise_free.
  - apply ou_mean_path_converges.
Qed.

Lemma np_zeros_zero s : np_zeros 0 s = (Ok [], s).
Proof. reflexivity. Qed.

(** C9.  With [num_points = 0] the array has no cell, the write of the
    starting point at index [0] is out of bounds, and the call raises
    [IndexError] for every value of the other arguments; no trajectory is
    returned and no draw is consumed. *)
Theorem ou_process_zero_points_raises mu l sigma x0 dt s :
  ornshtein_uhlenbeck_process_fn 0 mu l sigma x0 dt s = (Raise IndexError, s).
Proof.
  unfold ornshtein_uhlenbeck_process_fn.
  rewrite (bind_ok _ _ _ _ _ (np_zeros_zero s)).
  apply bind_raise, setitem_empty.
Qed.

End ProcessTheorems.

Lemma ou_process_recurrence_witness :
  exists x,
    ornshtein_uhlenbeck_process_fn (RS := counting_source) 3 5 10 0 0 1 0%nat =
    (Ok x, @after_normals counting_source (Z.to_nat 3 - 1) 0%nat) /\
    length x = Z.to_nat 3 /\
    nth 0 x 0 = 0 /\
    (forall i, (1 <= i < Z.to_nat 3)%nat ->
       nth i x 0 =
       nth (i - 1) x 0 * exp (- 10 * 1) + 5 * (1 - exp (- 10 * 1)) +
       0 * sqrt ((1 - exp (-2 * 10 * 1)) / (2 * 10)) *
       fst (@standard_normal counting_source
              (@after_normals counting_source (i - 1) 0%nat))) /\
    (0 = 0 ->
     forall i, (i < Z.to_nat 3)%nat -> nth i x 0 = ou_mean_path 5 10 0 1 i) /\
    (0 < 10 * 1 -> Un_cv (ou_mean_path 5 10 0 1) 5).
Proof.
  apply (@ou_process_recurrence counting_source 3 5 10 0 0 1 0%nat);
    [lia | lra | lra].
Defined.

(** ** Rounding *)

Lemma Int_part_bounds x : IZR (Int_part x) <= x < IZR (Int_part x) + 1.
Proof. destruct (base_Int_part x); lra. Qed.

Lemma Int_part_monotone x y : x <= y -> (Int_part x <= Int_part y)%Z.
Proof.
  intros Hxy.
  pose proof (Int_part_bounds x); pose proof (Int_part_bounds y).
  apply Z.lt_succ_r, lt_IZR; rewrite succ_IZR; lra.
Qed.

Lemma rint_cases x :
  let f := Int_part x in
  (rint x = f /\ x - IZR f <= / 2) \/
  (rint x = (f + 1)%Z /\ / 2 <= x - IZR f).
Proof.
  cbv zeta; unfold rint.
  destruct (Rlt_dec (x - IZR (Int_part x)) (/ 2)); [left; split; [easy | lra]|].
  destruct (Rlt_dec (/ 2) (x - IZR (Int_part x)));
    [right; split; [easy | lra]|].
  destruct (Z.even (Int_part x)); [left | right]; split; try easy; lra.
Qed.

Lemma Rabs_le_bounds a b : Rabs a <= b -> - b <= a <= b.
Proof. unfold Rabs; destruct (Rcase_abs a); intros; lra. Qed.

(** Rounding moves a number by at most one half. *)
Lemma rint_error x : Rabs (IZR (rint x) - x) <= / 2.
Proof.
  pose proof (Int_part_bounds x) as Hb.
  destruct (rint_cases x) as [[-> H]|[-> H]];
    rewrite ?plus_IZR; apply Rabs_le; lra.
Qed.

Lemma rint_monotone x y : x <= y -> (rint x <= rint y)%Z.
Proof.
  intros Hxy.
  pose proof (Int_part_monotone x y Hxy) as Hf.
  pose proof (Int_part_bounds x) as Hx; pose proof (Int_part_bounds y) as Hy.
  destruct (Z.eq_dec (Int_part x) (Int_part y)) as [Heq|Hne].
  - unfold rint; rewrite <- Heq in *.
    destruct (Rlt_dec (x - IZR (Int_part x)) (/ 2));
      destruct (Rlt_dec (y - IZR (Int_part x)) (/ 2));
      destruct (Rlt_dec (/ 2) (x - IZR (Int_part x)));
      destruct (Rlt_dec (/ 2) (y - IZR (Int_part x)));
      destruct (Z.even (Int_part x)); try lia; lra.
  - destruct (rint_cases x) as [[-> _]|[-> _]];
      destruct (rint_cases y) as [[-> _]|[-> _]]; lia.
Qed.

(** A number within one half of an integer rounds to that integer. *)
Lemma rint_near m x : IZR m - / 2 < x < IZR m + / 2 -> rint x = m.
Proof.
  intros Hm.
  pose proof (Int_part_bounds x) as Hb.
  assert (Hlo : (m - 1 <= Int_part x)%Z).
  { apply Z.lt_succ_r, lt_IZR.
    rewrite succ_IZR, minus_IZR; lra. }
  assert (Hhi : (Int_part x <= m)%Z).
  { apply Z.lt_succ_r, lt_IZR. rewrite succ_IZR; lra. }
  destruct (rint_cases x) as [[-> H]|[-> H]].
  - destruct (Z.eq_dec (Int_part x) m) as [|Hne]; [assumption|].
    assert (Int_part x = (m - 1)%Z) as Heq by lia.
    rewrite Heq, minus_IZR in H; lra.
  - destruct (Z.eq_dec (Int_part x) m) as [Heq|Hne]; [|lia].
    rewrite Heq in H; lra.
Qed.

Lemma pow10_pos n : 0 < 10 ^ n.
Proof. apply pow_lt; lra. Qed.

Lemma around_monotone k x y : x <= y -> around k x <= around k y.
Proof.
  intros Hxy; unfold around.
  destruct (0 <=? k)%Z.
  - pose proof (pow10_pos (Z.to_nat k)) as Hp.
    apply Rmult_le_compat_r; [left; now apply Rinv_0_lt_compat|].
    apply IZR_le, rint_monotone, Rmult_le_compat_r; [lra | exact Hxy].
  - pose proof (pow10_pos (Z.to_nat (- k))) as Hp.
    apply Rmult_le_compat_r; [lra|].
    apply IZR_le, rint_monotone, Rmult_le_compat_r;
      [left; now apply Rinv_0_lt_compat | exact Hxy].
Qed.

(** With a non-negative number of decimals, rounding moves a number by at
    most half a unit of the last kept place. *)
Lemma around_error k x :
  (0 <= k)%Z -> Rabs (around k x - x) <= / 2 * / 10 ^ Z.to_nat k.
Proof.
  intros Hk; unfold around.
  destruct (Z.leb_spec 0 k); [|lia].
  pose proof (pow10_pos (Z.to_nat k)) as Hp.
  set (p := 10 ^ Z.to_nat k) in *.
  replace (IZR (rint (x * p)) / p - x) with ((IZR (rint (x * p)) - x * p) * / p)
    by (field; lra).
  rewrite Rabs_mult, (Rabs_pos_eq (/ p))
    by (left; now apply Rinv_0_lt_compat).
  apply Rmult_le_compat_r; [left; now apply Rinv_0_lt_compat|].
  apply rint_error.
Qed.

Lemma around_rounded k x : rounded_to k (around k x).
Proof.
  unfold rounded_to, around; destruct (0 <=? k)%Z; eexists; reflexivity.
Qed.

(** ** The coupled-wave generator *)

Lemma nth_map_seq {A} (f : nat -> A) a n t d :
  (t < n)%nat -> nth t (map f (seq a n)) d = f (a + t)%nat.
Proof.
  intros Ht.
  rewrite (nth_indep _ d (f 0%nat)) by now rewrite length_map, length_seq.
  now rewrite map_nth, seq_nth.
Qed.

Section WaveFacts.

Context {RS : RandomSource}.

Variables (drift_sigma ou_sigma ou_lambda ou_mu : R).
Variables (spread_sigma_1 spread_sigma_2 spread_mean_1 spread_mean_2 : R).
Variable (bias : R).
Variable (s0 : rstate).

Local Abbreviation bar_at := (wave_bar drift_sigma ou_sigma ou_lambda ou_mu
                      spread_sigma_1 spread_sigma_2 spread_mean_1 spread_mean_2
                      bias s0).
Local Abbreviation series_at := (wave_series drift_sigma ou_sigma ou_lambda ou_mu
                         spread_sigma_1 spread_sigma_2 spread_mean_1
                         spread_mean_2 bias s0).
Local Abbreviation column_of := (column drift_sigma ou_sigma ou_lambda ou_mu
                        spread_sigma_1 spread_sigma_2 spread_mean_1
                        spread_mean_2 bias s0).
Local Abbreviation spread_of := (h_value spread_sigma_1 spread_sigma_2
                        spread_mean_1 spread_mean_2).

Lemma column_S f k : column_of f (S k) = column_of f k ++ [f (bar_at (S k))].
Proof. unfold column; now rewrite (seq_S (S k) 0), map_app. Qed.

Lemma column_length f k : length (column_of f k) = S k.
Proof. unfold column; now rewrite length_map, length_seq. Qed.

Lemma column_nth f k i : (i <= k)%nat -> nth i (column_of f k) 0 = f (bar_at i).
Proof. intros Hi; unfold column; rewrite nth_map_seq by lia; reflexivity. Qed.

Lemma getitem_column_last f k s :
  getitem (column_of f k) (-1) s = (Ok (f (bar_at k)), s).
Proof.
  destruct k as [|k]; [reflexivity|].
  rewrite column_S; apply getitem_last.
Qed.

Lemma delta_ou_eq mu x l sigma s :
  delta_ou mu x l sigma s =
  (Ok ((mu - x) * (1 - exp (- l)) +
       sigma * sqrt ((1 - exp (-2 * l)) / (2 * l)) * (0 + 1 * normal_at s 0)),
   after_normals 1 s).
Proof.
  unfold delta_ou.
  erewrite bind_ok; [|apply normal_eq; lra].
  reflexivity.
Qed.

Lemma h_eq s :
  0 <= spread_sigma_1 -> 0 <= spread_sigma_2 ->
  h spread_sigma_1 spread_sigma_2 spread_mean_1 spread_mean_2 s =
  (Ok (spread_of (normal_at s 0) (normal_at s 1)), after_normals 2 s).
Proof.
  intros H1 H2; unfold h.
  erewrite bind_ok; [|apply normal_eq; exact H1].
  erewrite bind_ok; [|apply normal_eq; exact H2].
  reflexivity.
Qed.

Lemma wave_step_run k :
  scales_ok drift_sigma spread_sigma_1 spread_sigma_2 ->
  wave_step drift_sigma ou_sigma ou_lambda ou_mu
            spread_sigma_1 spread_sigma_2 spread_mean_1 spread_mean_2
            (series_at k) (after_steps k s0) =
  (Ok (series_at (S k)), after_steps (S k) s0).
Proof.
  intros (Hd & H1 & H2); unfold wave_step, wave_series.
  cbn [x_mid1 x_low1 x_high1 x_last1 x_mid2 x_low2 x_high2 x_last2].
  rewrite !(column_S _ k).
  repeat (erewrite bind_ok;
          [|first [ apply getitem_column_last
                  | apply getitem_last
                  | apply delta_ou_eq
                  | apply normal_eq; exact Hd
                  | apply h_eq; assumption
                  | apply uniform_eq ]]).
  reflexivity.
Qed.

End WaveFacts.

Section WaveRuns.

Context {RS : RandomSource}.

Variables (drift_sigma ou_sigma ou_lambda ou_mu : R).
Variables (spread_sigma_1 spread_sigma_2 spread_mean_1 spread_mean_2 : R).
Variable (bias : R).
Variable (s0 : rstate).

Local Abbreviation bar_at := (wave_bar drift_sigma ou_sigma ou_lambda ou_mu
                      spread_sigma_1 spread_sigma_2 spread_mean_1 spread_mean_2
                      bias s0).
Local Abbreviation series_at := (wave_series drift_sigma ou_sigma ou_lambda ou_mu
                         spread_sigma_1 spread_sigma_2 spread_mean_1
                         spread_mean_2 bias s0).
Local Abbreviation step := (wave_step drift_sigma ou_sigma ou_lambda ou_mu
                    spread_sigma_1 spread_sigma_2 spread_mean_1 spread_mean_2).
Local Abbreviation loop := (wave_loop drift_sigma ou_sigma ou_lambda ou_mu
                    spread_sigma_1 spread_sigma_2 spread_mean_1 spread_mean_2
                    bias).
Local Abbreviation generator := (fun n k =>
  coupled_wave_pair_generator_fn n drift_sigma ou_sigma ou_lambda ou_mu
    spread_sigma_1 spread_sigma_2 spread_mean_1 spread_mean_2 bias k).

Lemma wave_iterations (g : nat -> Z) r : forall j,
  scales_ok drift_sigma spread_sigma_1 spread_sigma_2 ->
  for_each (map g (seq j r)) (fun _ st => step st)
           (series_at j) (after_steps j s0) =
  (Ok (series_at (j + r)), after_steps (j + r) s0).
Proof.
  induction r as [|r IH]; intros j Hs.
  - cbn [seq map for_each]; rewrite Nat.add_0_r; reflexivity.
  - cbn [seq map for_each].
    rewrite (bind_ok _ _ _ _ _ (wave_step_run _ _ _ _ _ _ _ _ _ _ j Hs)).
    rewrite IH by exact Hs.
    replace (S j + r)%nat with (j + S r)%nat by lia; reflexivity.
Qed.

(** The loop runs [num_points] iterations, none when [num_points <= 0]. *)
Lemma wave_loop_run n :
  scales_ok drift_sigma spread_sigma_1 spread_sigma_2 ->
  loop n s0 = (Ok (series_at (Z.to_nat n)), after_steps (Z.to_nat n) s0).
Proof.
  intros Hs; unfold wave_loop, range.
  replace (n - 0)%Z with n by lia.
  exact (wave_iterations _ (Z.to_nat n) 0%nat Hs).
Qed.


Lemma generator_run n k :
  scales_ok drift_sigma spread_sigma_1 spread_sigma_2 ->
  generator n k s0 =
  (Ok (around3 k (drop_first_column (stack (series_at (Z.to_nat n))))),
   after_steps (Z.to_nat n) s0).
Proof.
  intros Hs; unfold coupled_wave_pair_generator_fn.
  rewrite (bind_ok _ _ _ _ _ (wave_loop_run n Hs)); reflexivity.
Qed.


(** The returned column of a field: the history without its seed, rounded. *)
Lemma rounded_column_length (f : bar -> R) k n :
  length (map (around k) (skipn 1 (column drift_sigma ou_sigma ou_lambda ou_mu
            spread_sigma_1 spread_sigma_2 spread_mean_1 spread_mean_2
            bias s0 f n))) = n.
Proof.
  rewrite length_map, length_skipn, column_length; lia.
Qed.

Lemma rounded_column_nth (f : bar -> R) k n t :
  (t < n)%nat ->
  nth t (map (around k) (skipn 1 (column drift_sigma ou_sigma ou_lambda ou_mu
            spread_sigma_1 spread_sigma_2 spread_mean_1 spread_mean_2
            bias s0 f n))) 0 = around k (f (bar_at (S t))).
Proof.
  intros Ht; unfold column.
  cbn [seq map skipn]; rewrite map_map.
  rewrite nth_map_seq by exact Ht.
  reflexivity.
Qed.

(** A negative [drift_sigma] is refused by [np.random.normal] in the first
    iteration, after the draw of the coupling noise: this is why the
    statements below assume [scales_ok]. *)
Lemma generator_negative_drift_raises n k :
  (1 <= n)%Z -> drift_sigma < 0 ->
  generator n k s0 = (Raise ValueError, after_normals 1 s0).
Proof.
  intros Hn Hd; unfold coupled_wave_pair_generator_fn.
  apply bind_raise; unfold wave_loop, range.
  destruct (Z.to_nat (n - 0)) as [|m] eqn:Hm; [lia|].
  cbn [seq map for_each]; apply bind_raise; unfold wave_step, seed.
  cbn [x_last1 x_last2].
  erewrite bind_ok; [|apply (getitem_last [])].
  erewrite bind_ok; [|apply (getitem_last [])].
  erewrite bind_ok; [|apply delta_ou_eq].
  apply bind_raise, normal_negative_scale, Hd.
Qed.

(** *** Ordering within a bar *)

Lemma h_value_lower z1 z2 :
  spread_mean_1 <=
  h_value spread_sigma_1 spread_sigma_2 spread_mean_1 spread_mean_2 z1 z2.
Proof. unfold h_value; apply Rmax_r. Qed.

Lemma h_value_nonneg z1 z2 :
  0 <= h_value spread_sigma_1 spread_sigma_2 spread_mean_1 spread_mean_2 z1 z2.
Proof.
  unfold h_value.
  eapply Rle_trans; [apply sqrt_pos | apply Rmax_l].
Qed.

Lemma bar_spread t :
  spread_mean_1 <= b_high1 (bar_at (S t)) - b_low1 (bar_at (S t)) /\
  spread_mean_1 <= b_high2 (bar_at (S t)) - b_low2 (bar_at (S t)).
Proof.
  cbn [wave_bar]; unfold next_bar, s_low, s_high.
  cbn [b_high1 b_low1 b_high2 b_low2].
  match goal with
  | |- context [h_value _ _ _ _ ?a ?b] => pose proof (h_value_lower a b)
  end.
  match goal with
  | |- _ /\ _ <= _ + h_value _ _ _ _ ?a ?b / 2 - _ =>
      pose proof (h_value_lower a b)
  end.
  split; lra.
Qed.

Lemma bar_ordered t :
  let b := bar_at (S t) in
  (b_low1 b <= b_mid1 b <= b_high1 b /\ b_low1 b <= b_last1 b <= b_high1 b) /\
  (b_low2 b <= b_mid2 b <= b_high2 b /\ b_low2 b <= b_last2 b <= b_high2 b).
Proof.
  cbv zeta; cbn [wave_bar]; unfold next_bar, s_low, s_high.
  cbn [b_mid1 b_low1 b_high1 b_last1 b_mid2 b_low2 b_high2 b_last2].
  set (s := after_steps t s0).
  pose proof (h_value_nonneg (normal_at s 2) (normal_at s 3)) as Hh1.
  pose proof (h_value_nonneg (normal_at s 4) (normal_at s 5)) as Hh2.
  pose proof (random_sample_range (after_normals 6 s)) as Hu1.
  pose proof (random_sample_range (after_samples 1 (after_normals 6 s))) as Hu2.
  repeat split; nra.
Qed.

End WaveRuns.

(** *** Reading the returned array *)

Section WaveArray.

Context {RS : RandomSource}.

Variables (drift_sigma ou_sigma ou_lambda ou_mu : R).
Variables (spread_sigma_1 spread_sigma_2 spread_mean_1 spread_mean_2 : R).
Variable (bias : R).
Variable (s0 : rstate).

Local Abbreviation bar_at := (wave_bar drift_sigma ou_sigma ou_lambda ou_mu
                      spread_sigma_1 spread_sigma_2 spread_mean_1 spread_mean_2
                      bias s0).
Local Abbreviation series_at := (wave_series drift_sigma ou_sigma ou_lambda ou_mu
                         spread_sigma_1 spread_sigma_2 spread_mean_1
                         spread_mean_2 bias s0).

Lemma history_at_series n i :
  (i <= n)%nat -> history_at (series_at n) i = bar_at i.
Proof.
  intros Hi; unfold history_at, wave_series.
  cbn [x_mid1 x_low1 x_high1 x_last1 x_mid2 x_low2 x_high2 x_last2].
  rewrite !column_nth by exact Hi.
  now destruct (bar_at i).
Qed.

Lemma series_lengths n :
  Forall (fun c => length c = S n) (concat (stack (series_at n))).
Proof.
  unfold stack, wave_series; cbn [concat app].
  cbn [x_mid1 x_low1 x_high1 x_last1 x_mid2 x_low2 x_high2 x_last2].
  repeat constructor; apply column_length.
Qed.

Lemma array_shape n k :
  shape3 (around3 k (drop_first_column (stack (series_at n)))) 2 4 n.
Proof.
  unfold shape3, around3, drop_first_column, stack, wave_series.
  cbn [map x_mid1 x_low1 x_high1 x_last1 x_mid2 x_low2 x_high2 x_last2].
  split; [reflexivity|].
  repeat constructor; apply rounded_column_length.
Qed.

Lemma array_cells n k t :
  (t < n)%nat ->
  cells_at (around3 k (drop_first_column (stack (series_at n)))) t =
  map_bar (around k) (bar_at (S t)).
Proof.
  intros Ht.
  unfold cells_at, cell, around3, drop_first_column, stack, wave_series.
  cbn [map nth x_mid1 x_low1 x_high1 x_last1 x_mid2 x_low2 x_high2 x_last2].
  rewrite !rounded_column_nth by exact Ht.
  reflexivity.
Qed.

End WaveArray.

(** *** The claims about the coupled-wave generator *)

(** C1.  For [num_points >= 1], scales that [np.random.normal] accepts and a
    non-zero [ou_lambda], the call returns an array of shape
    [[2, 4, num_points]].  The history lists start with the seed values,
    bar [t] of the array is bar [t + 1] of the history (so the seed is the
    one column that is dropped) with the fields in the order mid, high, low,
    last, and every cell is a value rounded to [keep_decimals] places. *)
Theorem coupled_wave_output_layout {RS : RandomSource}
    num_points drift_sigma ou_sigma ou_lambda ou_mu
    spread_sigma_1 spread_sigma_2 spread_mean_1 spread_mean_2
    bias keep_decimals s :
  (1 <= num_points)%Z ->
  scales_ok drift_sigma spread_sigma_1 spread_sigma_2 ->
  ou_lambda <> 0 ->
  exists st arr,
    wave_loop drift_sigma ou_sigma ou_lambda ou_mu
      spread_sigma_1 spread_sigma_2 spread_mean_1 spread_mean_2
      bias num_points s =
    (Ok st, after_steps (Z.to_nat num_points) s) /\
    coupled_wave_pair_generator_fn num_points drift_sigma ou_sigma ou_lambda
      ou_mu spread_sigma_1 spread_sigma_2 spread_mean_1 spread_mean_2
      bias keep_decimals s =
    (Ok arr, after_steps (Z.to_nat num_points) s) /\
    shape3 arr 2 4 (Z.to_nat num_points) /\
    Forall (fun c => length c = S (Z.to_nat num_points)) (concat (stack st)) /\
    history_at st 0 = seed_bar ou_mu bias /\
    forall t, (t < Z.to_nat num_points)%nat ->
      cells_at arr t = map_bar (around keep_decimals) (history_at st (S t)) /\
      Forall (rounded_to keep_decimals) (bar_values (cells_at arr t)).
Proof.
  intros Hn Hs _.
  eexists; eexists.
  split; [apply wave_loop_run, Hs|].
  split; [apply generator_run, Hs|].
  split; [apply array_shape|].
  split; [apply series_lengths|].
  split; [apply history_at_series; lia|].
  intros t Ht.
  rewrite array_cells by exact Ht.
  rewrite history_at_series by lia.
  split; [reflexivity|].
  unfold bar_values, map_bar; cbn -[around].
  repeat constructor; apply around_rounded.
Qed.

(** C2.  Under the same conditions every bar of the returned array is
    ordered: for both assets the rounded low is at most the rounded mid and
    the rounded last, and these are at most the rounded high. *)
Theorem coupled_wave_bars_ordered {RS : RandomSource}
    num_points drift_sigma ou_sigma ou_lambda ou_mu
    spread_sigma_1 spread_sigma_2 spread_mean_1 spread_mean_2
    bias keep_decimals s :
  scales_ok drift_sigma spread_sigma_1 spread_sigma_2 ->
  ou_lambda <> 0 ->
  exists arr,
    coupled_wave_pair_generator_fn num_points drift_sigma ou_sigma ou_lambda
      ou_mu spread_sigma_1 spread_sigma_2 spread_mean_1 spread_mean_2
      bias keep_decimals s =
    (Ok arr, after_steps (Z.to_nat num_points) s) /\
    forall t, (t < Z.to_nat num_points)%nat ->
      let b := cells_at arr t in
      (b_low1 b <= b_mid1 b <= b_high1 b /\
       b_low1 b <= b_last1 b <= b_high1 b) /\
      (b_low2 b <= b_mid2 b <= b_high2 b /\
       b_low2 b <= b_last2 b <= b_high2 b).
Proof.
  intros Hs _.
  eexists; split; [apply generator_run, Hs|].
  intros t Ht; cbv zeta.
  rewrite array_cells by exact Ht.
  pose proof (bar_ordered drift_sigma ou_sigma ou_lambda ou_mu
                spread_sigma_1 spread_sigma_2 spread_mean_1 spread_mean_2
                bias s t) as Hb.
  cbv zeta in Hb; unfold map_bar.
  cbn [b_mid1 b_low1 b_high1 b_last1 b_mid2 b_low2 b_high2 b_last2].
  destruct Hb as [[[? ?] [? ?]] [[? ?] [? ?]]].
  repeat split; now apply around_monotone.
Qed.

(** C3, as amended.  Before rounding, every generated bar of the history
    has [high - low >= spread_mean_1].  After rounding to
    [keep_decimals >= 0] places the returned bar keeps
    [high - low >= spread_mean_1 - 10 ^ (- keep_decimals)]. *)
Theorem coupled_wave_minimum_spread {RS : RandomSource}
    num_points drift_sigma ou_sigma ou_lambda ou_mu
    spread_sigma_1 spread_sigma_2 spread_mean_1 spread_mean_2
    bias keep_decimals s :
  scales_ok drift_sigma spread_sigma_1 spread_sigma_2 ->
  ou_lambda <> 0 ->
  exists st arr,
    wave_loop drift_sigma ou_sigma ou_lambda ou_mu
      spread_sigma_1 spread_sigma_2 spread_mean_1 spread_mean_2
      bias num_points s =
    (Ok st, after_steps (Z.to_nat num_points) s) /\
    coupled_wave_pair_generator_fn num_points drift_sigma ou_sigma ou_lambda
      ou_mu spread_sigma_1 spread_sigma_2 spread_mean_1 spread_mean_2
      bias keep_decimals s =
    (Ok arr, after_steps (Z.to_nat num_points) s) /\
    forall t, (t < Z.to_nat num_points)%nat ->
      let raw := history_at st (S t) in
      let b := cells_at arr t in
      (spread_mean_1 <= b_high1 raw - b_low1 raw /\
       spread_mean_1 <= b_high2 raw - b_low2 raw) /\
      ((0 <= keep_decimals)%Z ->
       spread_mean_1 - / 10 ^ Z.to_nat keep_decimals <=
       b_high1 b - b_low1 b /\
       spread_mean_1 - / 10 ^ Z.to_nat keep_decimals <=
       b_high2 b - b_low2 b).
Proof.
  intros Hs _.
  eexists; eexists.
  split; [apply wave_loop_run, Hs|].
  split; [apply generator_run, Hs|].
  intros t Ht; cbv zeta.
  rewrite array_cells by exact Ht.
  rewrite history_at_series by lia.
  pose proof (bar_spread drift_sigma ou_sigma ou_lambda ou_mu
                spread_sigma_1 spread_sigma_2 spread_mean_1 spread_mean_2
                bias s t) as [H1 H2].
  split; [split; assumption|].
  intros Hk; unfold map_bar.
  cbn [b_low1 b_high1 b_low2 b_high2].
  set (b := wave_bar _ _ _ _ _ _ _ _ _ _ _) in *.
  pose proof (around_error keep_decimals (b_high1 b) Hk) as E1.
  pose proof (around_error keep_decimals (b_low1 b) Hk) as E2.
  pose proof (around_error keep_decimals (b_high2 b) Hk) as E3.
  pose proof (around_error keep_decimals (b_low2 b) Hk) as E4.
  apply Rabs_le_bounds in E1, E2, E3, E4.
  split; lra.
Qed.


(** C5.  At every step [i] the two new mid values are built from the two
    previous closing values with one and the same drift, the second normal
    deviate of the step scaled by [drift_sigma], and with one and the same
    coupling term [d_s], which uses the first normal deviate of the step:
    series 1 adds [d_s / 2], series 2 subtracts it. *)
Theorem coupled_wave_shared_drift {RS : RandomSource}
    num_points drift_sigma ou_sigma ou_lambda ou_mu
    spread_sigma_1 spread_sigma_2 spread_mean_1 spread_mean_2 bias s :
  scales_ok drift_sigma spread_sigma_1 spread_sigma_2 ->
  ou_lambda <> 0 ->
  exists st,
    wave_loop drift_sigma ou_sigma ou_lambda ou_mu
      spread_sigma_1 spread_sigma_2 spread_mean_1 spread_mean_2
      bias num_points s =
    (Ok st, after_steps (Z.to_nat num_points) s) /\
    forall i, (1 <= i <= Z.to_nat num_points)%nat ->
      let si := after_steps (i - 1) s in
      let last1 := nth (i - 1) (x_last1 st) 0 in
      let last2 := nth (i - 1) (x_last2 st) 0 in
      let d_s :=
        (ou_mu - (last1 - last2)) * (1 - exp (- ou_lambda)) +
        ou_sigma * sqrt ((1 - exp (-2 * ou_lambda)) / (2 * ou_lambda)) *
        normal_at si 0 in
      let drift1 := drift_sigma * normal_at si 1 in
      nth i (x_mid1 st) 0 = last1 * (1 + drift1) + d_s / 2 /\
      nth i (x_mid2 st) 0 = last2 * (1 + drift1) - d_s / 2.
Proof.
  intros Hs _.
  eexists; split; [apply wave_loop_run, Hs|].
  intros i Hi; cbv zeta.
  unfold wave_series.
  cbn [x_mid1 x_low1 x_high1 x_last1 x_mid2 x_low2 x_high2 x_last2].
  rewrite !column_nth by lia.
  destruct i as [|i]; [lia|].
  replace (S i - 1)%nat with i by lia.
  cbn [wave_bar]; unfold next_bar; cbn [b_mid1 b_mid2].
  split; field.
Qed.

(** *** Concrete runs of the coupled-wave generator *)

Lemma around_zero_near m x :
  IZR m - / 2 < x < IZR m + / 2 -> around 0 x = IZR m.
Proof.
  intros Hx; unfold around.
  change (0 <=? 0)%Z with true; change (Z.to_nat 0) with 0%nat; cbv iota.
  rewrite pow_O, Rmult_1_r, (rint_near m x Hx); field.
Qed.

(** With no noise, a start at [0.6] and a minimal spread of [1.4], the first
    bar is [mid = 0.6], [low = -0.1], [high = 1.3]. *)
Lemma first_bar_example :
  wave_bar (RS := counting_source) 0 0 1 0 0 0 (7 / 5) 0 (3 / 5) 0%nat 1 =
  mkBar (3 / 5) (- 1 / 10) (13 / 10) (3 / 5)
        (3 / 5) (- 1 / 10) (13 / 10) (3 / 5).
Proof.
  cbn [wave_bar]; unfold next_bar, seed_bar, h_value, s_low, s_high, normal_at.
  cbn [b_last1 b_last2 after_steps after_normals after_samples Nat.iter
       standard_normal random_sample counting_source replay_source fst snd].
  assert (Hsqrt : sqrt ((7 / 5 + 0 * 0) ^ 2 + (0 + 0 * 0) ^ 2) = 7 / 5).
  { replace ((7 / 5 + 0 * 0) ^ 2 + (0 + 0 * 0) ^ 2) with ((7 / 5) * (7 / 5))
      by field.
    apply sqrt_square; lra. }
  rewrite Hsqrt, Rmax_left by lra.
  f_equal; lra.
Qed.

(** C3, the counterexample.  One bar with [mid = 0.6] and spread [1.4],
    rounded to zero decimals: [low = -0.1] becomes [0] and [high = 1.3]
    becomes [1], so the returned bar has [high - low = 1 < 1.4]. *)
Lemma rounding_narrows_spread :
  coupled_wave_pair_generator_fn (RS := counting_source)
    1 0 0 1 0 0 0 (7 / 5) 0 (3 / 5) 0 0%nat =
  (Ok [[[1]; [1]; [0]; [1]]; [[1]; [1]; [0]; [1]]], 8%nat) /\
  ~ (7 / 5 <= 1 - 0).
Proof.
  split; [|lra].
  rewrite generator_run by (unfold scales_ok; lra).
  change (Z.to_nat 1) with 1%nat.
  unfold around3, drop_first_column, stack, wave_series, column.
  cbn [map seq skipn x_mid1 x_low1 x_high1 x_last1
       x_mid2 x_low2 x_high2 x_last2].
  rewrite first_bar_example.
  cbn [b_mid1 b_low1 b_high1 b_last1 b_mid2 b_low2 b_high2 b_last2].
  rewrite (around_zero_near 1 (3 / 5)) by lra.
  rewrite (around_zero_near 0 (- 1 / 10)) by lra.
  rewrite (around_zero_near 1 (13 / 10)) by lra.
  reflexivity.
Qed.


Lemma coupled_wave_output_layout_witness :
  exists arr,
    coupled_wave_pair_generator_fn (RS := counting_source)
      2 0 0 1 0 0 0 1 0 10 6 0%nat = (Ok arr, 16%nat) /\
    shape3 arr 2 4 2.
Proof.
  destruct (@coupled_wave_output_layout counting_source
              2 0 0 1 0 0 0 1 0 10 6 0%nat)
    as (st & arr & _ & Hrun & Hshape & _);
    [lia | unfold scales_ok; lra | lra |].
  exists arr; split; [exact Hrun | exact Hshape].
Defined.

Lemma coupled_wave_bars_ordered_witness :
  exists arr,
    coupled_wave_pair_generator_fn (RS := counting_source)
      2 0 0 1 0 0 0 1 0 10 6 0%nat = (Ok arr, 16%nat) /\
    b_low1 (cells_at arr 1) <= b_mid1 (cells_at arr 1) <=
    b_high1 (cells_at arr 1).
Proof.
  destruct (@coupled_wave_bars_ordered counting_source
              2 0 0 1 0 0 0 1 0 10 6 0%nat)
    as (arr & Hrun & Hord); [unfold scales_ok; lra | lra |].
  exists arr; split; [exact Hrun|].
  apply (Hord 1%nat); change (Z.to_nat 2) with 2%nat; lia.
Defined.

Lemma coupled_wave_minimum_spread_witness :
  exists st arr,
    coupled_wave_pair_generator_fn (RS := counting_source)
      1 0 0 1 0 0 0 (7 / 5) 0 (3 / 5) 0 0%nat = (Ok arr, 8%nat) /\
    7 / 5 <= b_high1 (history_at st 1) - b_low1 (history_at st 1) /\
    7 / 5 - / 10 ^ 0 <= b_high1 (cells_at arr 0) - b_low1 (cells_at arr 0).
Proof.
  destruct (@coupled_wave_minimum_spread counting_source
              1 0 0 1 0 0 0 (7 / 5) 0 (3 / 5) 0 0%nat)
    as (st & arr & _ & Hrun & Hspread); [unfold scales_ok; lra | lra |].
  exists st, arr; split; [exact Hrun|].
  destruct (Hspread 0%nat) as [[Hraw _] Hrounded];
    [change (Z.to_nat 1) with 1%nat; lia|].
  split; [exact Hraw | apply Hrounded; lia].
Defined.


Lemma coupled_wave_shared_drift_witness :
  exists st,
    wave_loop (RS := counting_source) 0 0 1 0 0 0 1 0 10 2 0%nat =
    (Ok st, 16%nat) /\
    nth 2 (x_mid1 st) 0 =
    nth 1 (x_last1 st) 0 * (1 + 0 * 0) +
    ((0 - (nth 1 (x_last1 st) 0 - nth 1 (x_last2 st) 0)) * (1 - exp (- 1)) +
     0 * sqrt ((1 - exp (-2 * 1)) / (2 * 1)) * 0) / 2.
Proof.
  destruct (@coupled_wave_shared_drift counting_source
              2 0 0 1 0 0 0 1 0 10 0%nat)
    as (st & Hrun & Hstep); [unfold scales_ok; lra | lra |].
  exists st; split; [exact Hrun|].
  apply (Hstep 2%nat); change (Z.to_nat 2) with 2%nat; lia.
Defined.

(** * Further properties *)

(** ** The Wiener trajectory *)

Lemma cumsum_from_length acc r : length (cumsum_from acc r) = length r.
Proof.
  revert acc; induction r as [|x r IH]; intros acc; cbn; [reflexivity|].
  now rewrite IH.
Qed.

Lemma cumsum_length r : length (cumsum r) = length r.
Proof. destruct r; cbn; [reflexivity | now rewrite cumsum_from_length]. Qed.

Lemma cumsum_from_nth acc r i :
  (i < length r)%nat ->
  nth i (cumsum_from acc r) 0 =
  match i with
  | O => acc
  | S j => nth j (cumsum_from acc r) 0
  end + nth i r 0.
Proof.
  revert acc i; induction r as [|x r IH]; intros acc i Hi; cbn in Hi; [lia|].
  destruct i as [|[|i]]; cbn [cumsum_from nth]; [reflexivity| |].
  - rewrite IH by lia; reflexivity.
  - rewrite IH by lia; reflexivity.
Qed.

(** Every cell of a cumulative sum is the cell before it plus the summand
    of its own index. *)
Lemma cumsum_nth r i :
  (i < length r)%nat ->
  nth i (cumsum r) 0 =
  match i with
  | O => 0
  | S j => nth j (cumsum r) 0
  end + nth i r 0.
Proof.
  intros Hi; destruct r as [|x r]; cbn in Hi; [lia|].
  destruct i as [|[|i]]; cbn [cumsum nth].
  - ring.
  - rewrite cumsum_from_nth by lia; reflexivity.
  - rewrite cumsum_from_nth by lia; reflexivity.
Qed.

Lemma cumsum_from_zeros acc n :
  cumsum_from acc (repeat (0 * 1) n) = repeat acc n.
Proof.
  induction n as [|n IH]; cbn [repeat cumsum_from]; [reflexivity|].
  replace (acc + 0 * 1) with acc by ring; now rewrite IH.
Qed.

Lemma rows_of_map_seq (g : nat -> R) n m : forall a,
  rows_of n m (map g (seq a (m * n))) =
  map (fun j => map g (seq (a + j * n) n)) (seq 0 m).
Proof.
  induction m as [|m IH]; intros a; [reflexivity|].
  cbn [rows_of Nat.mul seq map].
  rewrite seq_app, map_app.
  rewrite firstn_app, firstn_all2 by (rewrite length_map, length_seq; lia).
  rewrite length_map, length_seq, Nat.sub_diag, firstn_O, app_nil_r.
  rewrite skipn_app, skipn_all2 by (rewrite length_map, length_seq; lia).
  rewrite length_map, length_seq, Nat.sub_diag, skipn_O; cbn [app].
  rewrite IH, <- seq_shift, map_map.
  rewrite Nat.add_0_r; f_equal.
  apply map_ext; intros j; do 2 f_equal; lia.
Qed.

Section WienerFacts.

Context {RS : RandomSource}.

Lemma after_normals_add i j s :
  after_normals i (after_normals j s) = after_normals (i + j) s.
Proof. unfold after_normals; now rewrite Nat.iter_add. Qed.

Lemma normal_at_shift s j i :
  normal_at (after_normals j s) i = normal_at s (i + j).
Proof. unfold normal_at; now rewrite after_normals_add. Qed.

Lemma standard_normals_eq n : forall s,
  standard_normals n s =
  (Ok (map (normal_at s) (seq 0 n)), after_normals n s).
Proof.
  induction n as [|n IH]; intros s; [reflexivity|].
  cbn [standard_normals]; unfold bind at 1.
  destruct (standard_normal s) as [z s1] eqn:Hz.
  rewrite (bind_ok _ _ _ _ _ (IH s1)); unfold ret.
  assert (Hs1 : s1 = after_normals 1 s) by (cbn; now rewrite Hz).
  rewrite Hs1, after_normals_add, Nat.add_1_r.
  cbn [seq map]; rewrite <- seq_shift, map_map.
  do 3 f_equal.
  - unfold normal_at; cbn; now rewrite Hz.
  - apply map_ext; intros i; rewrite normal_at_shift; f_equal; lia.
Qed.

(** The flat array of draws for a positive scale and a shape without a
    negative dimension. *)
Lemma norm_rvs_draws shape scale s :
  0 < scale -> forallb (fun d => (0 <=? d)%Z) shape = true ->
  norm_rvs shape scale s =
  (Ok (map (fun i => normal_at s i * scale + 0)
           (seq 0 (Z.to_nat (fold_right Z.mul 1%Z shape)))),
   after_normals (Z.to_nat (fold_right Z.mul 1%Z shape)) s).
Proof.
  intros Hs Hshape; unfold norm_rvs.
  rewrite (proj2 (Rltb_false scale 0)) by lra.
  replace (existsb (fun d => (d <? 0)%Z) shape) with false.
  2:{ symmetry; apply not_true_is_false; intros Hex.
      apply existsb_exists in Hex as (d & Hin & Hd).
      rewrite forallb_forall in Hshape; specialize (Hshape d Hin); lia. }
  unfold Reqb; destruct (Req_dec_T scale 0) as [->|_]; [lra|].
  rewrite (bind_ok _ _ _ _ _ (standard_normals_eq _ s)); unfold ret.
  now rewrite map_map.
Qed.

Lemma norm_rvs_refused shape scale s :
  scale < 0 \/ (exists d, In d shape /\ (d < 0)%Z) ->
  norm_rvs shape scale s = (Raise ValueError, s).
Proof.
  intros Hbad; unfold norm_rvs.
  destruct (Rltb scale 0) eqn:Hs; [reflexivity|].
  apply Rltb_false in Hs.
  destruct Hbad as [Hneg|(d & Hin & Hd)]; [lra|].
  replace (existsb (fun d => (d <? 0)%Z) shape) with true; [reflexivity|].
  symmetry; apply existsb_exists; exists d; split; [exact Hin | lia].
Qed.

Lemma norm_rvs_zero_scale shape s :
  forallb (fun d => (0 <=? d)%Z) shape = true ->
  norm_rvs shape 0 s =
  (Ok (repeat (0 * 1) (Z.to_nat (fold_right Z.mul 1%Z shape))), s).
Proof.
  intros Hshape; unfold norm_rvs.
  rewrite (proj2 (Rltb_false 0 0)) by lra.
  replace (existsb (fun d => (d <? 0)%Z) shape) with false.
  2:{ symmetry; apply not_true_is_false; intros Hex.
      apply existsb_exists in Hex as (d & Hin & Hd).
      rewrite forallb_forall in Hshape; specialize (Hshape d Hin); lia. }
  unfold Reqb; destruct (Req_dec_T 0 0) as [_|Hne]; [reflexivity | easy].
Qed.

End WienerFacts.

Lemma nth_map_shift (l : list R) a i :
  (i < length l)%nat -> nth i (map (fun c => c + a) l) 0 = nth i l 0 + a.
Proof.
  intros Hi.
  rewrite (nth_indep _ 0 (0 + a)) by now rewrite length_map.
  exact (map_nth (fun c => c + a) l 0 i).
Qed.

(** X1.  A Wiener trajectory from a scalar start, with a positive scale
    [delta * sqrt dt]: [num_points] cells, each obtained from the one before
    it (the first from [x0]) by adding the scale times the standard normal
    deviate of its own index; the call consumes exactly [num_points]
    deviates. *)
Theorem weiner_process_increments {RS : RandomSource}
    num_points delta a dt s :
  (0 <= num_points)%Z -> 0 <= dt -> 0 < delta * sqrt dt ->
  exists xs,
    weiner_process_fn num_points delta (PyNum a) dt s =
    (Ok (Array1 xs), after_normals (Z.to_nat num_points) s) /\
    length xs = Z.to_nat num_points /\
    forall i, (i < Z.to_nat num_points)%nat ->
      nth i xs 0 =
      match i with
      | O => a
      | S j => nth j xs 0
      end + delta * sqrt dt * normal_at s i.
Proof.
  intros Hn _ Hscale; unfold weiner_process_fn.
  rewrite (bind_ok _ _ _ _ _ (norm_rvs_draws [num_points] _ s Hscale
             ltac:(cbn; destruct (Z.leb_spec 0 num_points); [reflexivity|lia]))).
  cbn [fold_right]; rewrite Z.mul_1_r; unfold ret.
  set (n := Z.to_nat num_points).
  set (flat := map (fun i => normal_at s i * (delta * sqrt dt) + 0) (seq 0 n)).
  assert (Hlen : length flat = n) by (unfold flat; now rewrite length_map, length_seq).
  eexists; split; [reflexivity|].
  split; [now rewrite length_map, cumsum_length|].
  intros i Hi.
  rewrite nth_map_shift by (rewrite cumsum_length; lia).
  rewrite cumsum_nth by lia.
  unfold flat at 2; rewrite nth_map_seq by lia; cbn [Nat.add].
  destruct i as [|j]; [ring|].
  rewrite nth_map_shift by (rewrite cumsum_length; lia); ring.
Qed.

(** X2.  The degenerate calls of the Wiener generator.  With
    [num_points = 0] it returns an empty array and consumes no draw (the
    Ornstein-Uhlenbeck generator raises there); a negative [num_points] or a
    negative scale raises [ValueError], for a scalar and for a batched
    start alike, with the random source untouched. *)
Theorem weiner_process_degenerate {RS : RandomSource} :
  (forall delta a dt s,
      0 <= dt -> 0 <= delta * sqrt dt ->
      weiner_process_fn 0 delta (PyNum a) dt s = (Ok (Array1 []), s)) /\
  (forall num_points delta x0 dt s,
      0 <= dt -> (num_points < 0)%Z \/ delta * sqrt dt < 0 ->
      weiner_process_fn num_points delta x0 dt s = (Raise ValueError, s)).
Proof.
  split.
  - intros delta a dt s _ [Hpos|Hzero]; unfold weiner_process_fn.
    + rewrite (bind_ok _ _ _ _ _ (norm_rvs_draws [0%Z] _ s Hpos eq_refl)).
      reflexivity.
    + rewrite <- Hzero.
      rewrite (bind_ok _ _ _ _ _ (norm_rvs_zero_scale [0%Z] s eq_refl)).
      reflexivity.
  - intros num_points delta x0 dt s _ Hbad; unfold weiner_process_fn.
    destruct x0 as [a|xs]; apply bind_raise, norm_rvs_refused;
      (destruct Hbad as [Hn|Hs]; [right | left; exact Hs]);
      exists num_points; (split; [cbn; tauto | exact Hn]).
Qed.

(** X3.  With a zero scale ([delta = 0] or [dt = 0]) the Wiener trajectory
    is constant: every cell is the starting point. *)
Theorem weiner_process_zero_scale {RS : RandomSource}
    num_points delta a dt s :
  (0 <= num_points)%Z -> 0 <= dt -> delta * sqrt dt = 0 ->
  exists s',
    weiner_process_fn num_points delta (PyNum a) dt s =
    (Ok (Array1 (repeat a (Z.to_nat num_points))), s').
Proof.
  intros Hn _ Hzero; unfold weiner_process_fn; rewrite Hzero.
  rewrite (bind_ok _ _ _ _ _ (norm_rvs_zero_scale [num_points] s
             ltac:(cbn; destruct (Z.leb_spec 0 num_points); [reflexivity|lia]))).
  cbn [fold_right]; rewrite Z.mul_1_r; unfold ret.
  exists s; do 3 f_equal.
  destruct (Z.to_nat num_points) as [|n]; [reflexivity|].
  cbn [repeat cumsum map]; rewrite cumsum_from_zeros, map_repeat.
  now replace (0 * 1 + a) with a by ring.
Qed.

(** X4.  A batched call is the sequence of the scalar calls: row [j] of the
    result for the starting points [xs] is the trajectory that the scalar
    call for [xs[j]] returns from the random source as the first [j] rows
    left it, and the batch consumes [len(xs) * num_points] deviates. *)
Theorem weiner_process_batched_rows {RS : RandomSource}
    num_points delta xs dt s :
  (0 <= num_points)%Z -> 0 <= dt -> 0 < delta * sqrt dt ->
  exists rows,
    weiner_process_fn num_points delta (PySeq xs) dt s =
    (Ok (Array2 rows),
     after_normals (length xs * Z.to_nat num_points) s) /\
    length rows = length xs /\
    forall j, (j < length xs)%nat ->
      weiner_process_fn num_points delta (PyNum (nth j xs 0)) dt
        (after_normals (j * Z.to_nat num_points) s) =
      (Ok (Array1 (nth j rows [])),
       after_normals (S j * Z.to_nat num_points) s).
Proof.
  intros Hn _ Hscale; unfold weiner_process_fn.
  set (n := Z.to_nat num_points).
  set (g := fun i => normal_at s i * (delta * sqrt dt) + 0).
  assert (Hshape : forall m : nat,
             forallb (fun d => (0 <=? d)%Z) [Z.of_nat m; num_points] = true).
  { intros m; cbn.
    destruct (Z.leb_spec 0 (Z.of_nat m)); [|lia].
    destruct (Z.leb_spec 0 num_points); [reflexivity|lia]. }
  rewrite (bind_ok _ _ _ _ _ (norm_rvs_draws _ _ s Hscale (Hshape (length xs)))).
  cbn [fold_right]; rewrite Z.mul_1_r.
  replace (Z.to_nat (Z.of_nat (length xs) * num_points))
    with (length xs * n)%nat by (unfold n; lia).
  fold g; rewrite (rows_of_map_seq g n (length xs) 0); unfold ret.
  eexists; split; [reflexivity|].
  split.
  { rewrite length_map, length_combine, length_map, length_seq; lia. }
  intros j Hj.
  rewrite (bind_ok _ _ _ _ _ (norm_rvs_draws [num_points] _ _ Hscale
             ltac:(cbn; destruct (Z.leb_spec 0 num_points); [reflexivity|lia]))).
  cbn [fold_right]; rewrite Z.mul_1_r; fold n; unfold ret.
  rewrite after_normals_add.
  replace (n + j * n)%nat with (S j * n)%nat by lia.
  do 3 f_equal.
  set (F := fun ra : list R * R => map (fun c => c + snd ra) (cumsum (fst ra))).
  rewrite (nth_indep _ [] (F ([], 0)))
    by (rewrite length_map, length_combine, length_map, length_seq; lia).
  rewrite (map_nth F), combine_nth by now rewrite length_map, length_seq.
  unfold F; cbn [fst snd]; do 2 f_equal.
  rewrite (nth_indep _ [] ((fun j => map g (seq (0 + j * n) n)) 0%nat))
    by (rewrite length_map, length_seq; lia).
  rewrite (map_nth (fun j => map g (seq (0 + j * n) n))), seq_nth by lia.
  cbn [Nat.add].
  apply nth_ext with (d := 0) (d' := 0);
    [now rewrite !length_map, !length_seq|].
  intros i Hi; rewrite length_map, length_seq in Hi.
  rewrite !nth_map_seq by exact Hi.
  unfold g; rewrite normal_at_shift; cbn [Nat.add].
  do 3 f_equal; lia.
Qed.

Lemma weiner_process_increments_witness :
  exists xs,
    weiner_process_fn (RS := counting_source) 3 2 (PyNum 5) 1 0%nat =
    (Ok (Array1 xs), 3%nat) /\
    length xs = 3%nat.
Proof.
  destruct (@weiner_process_increments counting_source 3 2 5 1 0%nat)
    as (xs & Hrun & Hlen & _); [lia | lra | rewrite sqrt_1; lra |].
  exists xs; split; [exact Hrun | exact Hlen].
Defined.

Lemma weiner_process_degenerate_witness :
  weiner_process_fn (RS := counting_source) 0 2 (PyNum 5) 1 0%nat =
  (Ok (Array1 []), 0%nat) /\
  weiner_process_fn (RS := counting_source) (-1) 2 (PySeq [5; 6]) 1 0%nat =
  (Raise ValueError, 0%nat).
Proof.
  split.
  - apply (proj1 (@weiner_process_degenerate counting_source));
      [lra | rewrite sqrt_1; lra].
  - apply (proj2 (@weiner_process_degenerate counting_source));
      [lra | left; lia].
Defined.

Lemma weiner_process_zero_scale_witness :
  exists s',
    weiner_process_fn (RS := counting_source) 2 0 (PyNum 5) 1 0%nat =
    (Ok (Array1 [5; 5]), s').
Proof.
  apply (@weiner_process_zero_scale counting_source 2 0 5 1 0%nat);
    [lia | lra | lra].
Defined.

Lemma weiner_process_batched_rows_witness :
  exists rows,
    weiner_process_fn (RS := counting_source) 3 2 (PySeq [5; 6]) 1 0%nat =
    (Ok (Array2 rows), 6%nat) /\
    length rows = 2%nat.
Proof.
  destruct (@weiner_process_batched_rows counting_source 3 2 [5; 6] 1 0%nat)
    as (rows & Hrun & Hlen & _); [lia | lra | rewrite sqrt_1; lra |].
  exists rows; split; [exact Hrun | exact Hlen].
Defined.

(** ** More on the parameter samplers *)

Section SamplerExtras.

Context {RS : RandomSource}.

Lemma ou_uniform_parameters_accepts mu l sigma x0 s d s' :
  ornshtein_uhlenbeck_uniform_parameters_fn mu l sigma x0 s = (Ok d, s') ->
  ou_checks_pass mu l sigma /\
  (forall p, x0 = Some p -> well_formed unconstrained (as_interval p)).
Proof.
  intros Hrun.
  destruct (well_formed_dec positive (Rlt_dec 0) (as_interval l)) as [Hl|Hl];
    [|rewrite ou_uniform_parameters_early_raise in Hrun
        by (unfold ou_checks_pass; tauto); discriminate].
  destruct (well_formed_dec nonneg (Rle_dec 0) (as_interval sigma)) as [Hs|Hs];
    [|rewrite ou_uniform_parameters_early_raise in Hrun
        by (unfold ou_checks_pass; tauto); discriminate].
  destruct (well_formed_dec unconstrained (fun _ => left I) (as_interval mu))
    as [Hm|Hm];
    [|rewrite ou_uniform_parameters_early_raise in Hrun
        by (unfold ou_checks_pass; tauto); discriminate].
  assert (Hc : ou_checks_pass mu l sigma) by (unfold ou_checks_pass; tauto).
  split; [exact Hc|].
  intros p ->.
  destruct (well_formed_dec unconstrained (fun _ => left I) (as_interval p))
    as [Hp|Hp]; [exact Hp|].
  rewrite (ou_uniform_parameters_late_raise _ _ _ _ _ Hc Hp) in Hrun.
  discriminate.
Qed.

End SamplerExtras.

(** X5.  The uniform samplers return parameters exactly for well-formed
    specifications: the Wiener sampler when [delta] and [x0] are
    non-negative ordered pairs (or non-negative numbers), the
    Ornstein-Uhlenbeck sampler when [l] is positive, [sigma] non-negative,
    [mu] ordered, and [x0] is [None] or ordered. *)
Theorem uniform_samplers_accept_exactly {RS : RandomSource} :
  (forall delta x0 s,
      (exists d s',
          weiner_process_uniform_parameters_fn delta x0 s = (Ok d, s')) <->
      well_formed nonneg (as_interval delta) /\
      well_formed nonneg (as_interval x0)) /\
  (forall mu l sigma x0 s,
      (exists d s',
          ornshtein_uhlenbeck_uniform_parameters_fn mu l sigma x0 s =
          (Ok d, s')) <->
      ou_checks_pass mu l sigma /\
      (forall p, x0 = Some p -> well_formed unconstrained (as_interval p))).
Proof.
  split.
  - intros delta x0 s; split.
    + intros (d & s' & Hrun).
      destruct (well_formed_dec nonneg (Rle_dec 0) (as_interval delta))
        as [Hd|Hd];
        [|rewrite weiner_parameters_raise in Hrun by tauto; discriminate].
      destruct (well_formed_dec nonneg (Rle_dec 0) (as_interval x0))
        as [Hx|Hx];
        [|rewrite weiner_parameters_raise in Hrun by tauto; discriminate].
      tauto.
    + intros [Hd Hx]; do 2 eexists; now apply weiner_parameters_ok.
  - intros mu l sigma x0 s; split.
    + intros (d & s' & Hrun); eapply ou_uniform_parameters_accepts, Hrun.
    + intros [Hc Hx].
      destruct (ou_uniform_parameters_ok mu l sigma x0 s Hc Hx)
        as (lv & sv & mv & xv & s' & Hrun & _).
      do 2 eexists; exact Hrun.
Qed.

Lemma uniform_samplers_accept_exactly_witness :
  exists d s',
    weiner_process_uniform_parameters_fn (RS := counting_source)
      (PySeq [1; 2]) (PyNum 3) 0%nat = (Ok d, s').
Proof.
  apply (proj1 (@uniform_samplers_accept_exactly counting_source));
    split; constructor; unfold nonneg; lra.
Defined.

Lemma ou_uniform_parameters_closed_form {RS : RandomSource}
    mu l sigma x0 s :
  ou_checks_pass mu l sigma ->
  (forall p, x0 = Some p -> well_formed unconstrained (as_interval p)) ->
  ornshtein_uhlenbeck_uniform_parameters_fn mu l sigma x0 s =
  (Ok [("l"%string, drawn_from l (sample_at s 0));
       ("sigma"%string, drawn_from sigma (sample_at s 1));
       ("mu"%string, drawn_from mu (sample_at s 2));
       ("x0"%string,
        match x0 with
        | None => drawn_from mu (sample_at s 2)
        | Some p => drawn_from p (sample_at s 3)
        end)],
   after_samples (match x0 with None => 3 | Some _ => 4 end) s).
Proof.
  intros Hc Hx; unfold ornshtein_uhlenbeck_uniform_parameters_fn.
  rewrite (ou_checks_ok _ _ _ _ _ Hc).
  destruct Hc as (Hl & Hs & Hm).
  rewrite (bind_ok _ _ _ _ _ (uniform_of_well_formed _ _ _ Hl)).
  rewrite (bind_ok _ _ _ _ _ (uniform_of_well_formed _ _ _ Hs)).
  rewrite (bind_ok _ _ _ _ _ (uniform_of_well_formed _ _ _ Hm)).
  destruct x0 as [p|]; cbn [sample_x0].
  - specialize (Hx p eq_refl).
    erewrite bind_ok; cycle 1.
    { erewrite bind_ok; [|apply assert_interval_ok, Hx].
      apply (uniform_of_well_formed _ _ _ Hx). }
    reflexivity.
  - reflexivity.
Qed.

(** X6.  The order of the draws in the Ornstein-Uhlenbeck sampler: [l] is
    made from the first uniform double, [sigma] from the second, [mu] from
    the third; with [x0 = None] the start is the sampled mean and three
    doubles are consumed, otherwise [x0] is made from the fourth. *)
Theorem ou_uniform_parameters_draw_order {RS : RandomSource}
    mu l sigma x0 s :
  ou_checks_pass mu l sigma ->
  (forall p, x0 = Some p -> well_formed unconstrained (as_interval p)) ->
  ornshtein_uhlenbeck_uniform_parameters_fn mu l sigma x0 s =
  (Ok [("l"%string, drawn_from l (sample_at s 0));
       ("sigma"%string, drawn_from sigma (sample_at s 1));
       ("mu"%string, drawn_from mu (sample_at s 2));
       ("x0"%string,
        match x0 with
        | None => drawn_from mu (sample_at s 2)
        | Some p => drawn_from p (sample_at s 3)
        end)],
   after_samples (match x0 with None => 3 | Some _ => 4 end) s).
Proof. exact (ou_uniform_parameters_closed_form mu l sigma x0 s). Qed.

Lemma ou_uniform_parameters_draw_order_witness :
  ornshtein_uhlenbeck_uniform_parameters_fn (RS := counting_source)
    (PySeq [-1; 1]) (PySeq [1; 3]) (PyNum 2) None 0%nat =
  (Ok [("l"%string, drawn_from (PySeq [1; 3]) (/ 2));
       ("sigma"%string, drawn_from (PyNum 2) (/ 2));
       ("mu"%string, drawn_from (PySeq [-1; 1]) (/ 2));
       ("x0"%string, drawn_from (PySeq [-1; 1]) (/ 2))], 3%nat).
Proof.
  apply (@ou_uniform_parameters_draw_order counting_source
           (PySeq [-1; 1]) (PySeq [1; 3]) (PyNum 2) None 0%nat).
  - unfold ou_checks_pass; split; [|split]; constructor;
      unfold positive, nonneg, unconstrained; (lra || exact I).
  - discriminate.
Defined.

Lemma drawn_from_number a u : drawn_from (PyNum a) u = a.
Proof. unfold drawn_from, lower, upper; cbn; ring. Qed.

(** X7.  A fixed configuration is returned as it is, and still moves the
    random source: two doubles for the Wiener sampler, three for the
    Ornstein-Uhlenbeck sampler with [x0 = None] (the start is then the
    mean), four with a number for [x0]. *)
Theorem fixed_configuration_is_returned {RS : RandomSource} :
  (forall d a s,
      0 <= d -> 0 <= a ->
      weiner_process_uniform_parameters_fn (PyNum d) (PyNum a) s =
      (Ok [("delta"%string, d); ("x0"%string, a)], after_samples 2 s)) /\
  (forall m l g s,
      0 < l -> 0 <= g ->
      ornshtein_uhlenbeck_uniform_parameters_fn
        (PyNum m) (PyNum l) (PyNum g) None s =
      (Ok [("l"%string, l); ("sigma"%string, g);
           ("mu"%string, m); ("x0"%string, m)], after_samples 3 s)) /\
  (forall m l g a s,
      0 < l -> 0 <= g ->
      ornshtein_uhlenbeck_uniform_parameters_fn
        (PyNum m) (PyNum l) (PyNum g) (Some (PyNum a)) s =
      (Ok [("l"%string, l); ("sigma"%string, g);
           ("mu"%string, m); ("x0"%string, a)], after_samples 4 s)).
Proof.
  assert (Hwf : forall (P : R -> Prop) a, P a ->
                  well_formed P (as_interval (PyNum a))).
  { intros P a Ha; constructor; [exact Ha | lra]. }
  split; [|split].
  - intros d a s Hd Ha.
    rewrite weiner_parameters_ok by (apply Hwf; assumption).
    fold (drawn_from (PyNum d) (fst (random_sample s))).
    fold (drawn_from (PyNum a) (fst (random_sample (after_samples 1 s)))).
    now rewrite !drawn_from_number.
  - intros m l g s Hl Hg.
    rewrite ou_uniform_parameters_closed_form;
      [ now rewrite !drawn_from_number
      | unfold ou_checks_pass; split; [|split]; apply Hwf;
        first [exact Hl | exact Hg | exact I]
      | discriminate ].
  - intros m l g a s Hl Hg.
    rewrite ou_uniform_parameters_closed_form;
      [ now rewrite !drawn_from_number
      | unfold ou_checks_pass; split; [|split]; apply Hwf;
        first [exact Hl | exact Hg | exact I]
      | intros p [= <-]; apply Hwf; exact I ].
Qed.

Lemma fixed_configuration_is_returned_witness :
  weiner_process_uniform_parameters_fn (RS := counting_source)
    (PyNum 2) (PyNum 3) 0%nat =
  (Ok [("delta"%string, 2); ("x0"%string, 3)], 2%nat).
Proof.
  apply (proj1 (@fixed_configuration_is_returned counting_source)); lra.
Defined.

(** ** More on the Ornstein-Uhlenbeck trajectory *)

Section ProcessExtras.

Context {RS : RandomSource}.

Lemma ou_process_returns num_points mu l sigma x0 dt s :
  (1 <= num_points)%Z ->
  ornshtein_uhlenbeck_process_fn num_points mu l sigma x0 dt s =
  (Ok (ou_prefix mu l sigma x0 dt s (Z.to_nat num_points)),
   after_normals (Z.to_nat num_points - 1) s).
Proof.
  intros Hn.
  destruct (Z.to_nat num_points) as [|m] eqn:Hm; [lia|].
  replace num_points with (Z.of_nat (S m)) by lia.
  replace (S m - 1)%nat with m by lia.
  apply ou_process_run.
Qed.

Lemma ou_value_start_shift mu l sigma x0 x0' dt s k :
  ou_value mu l sigma x0 dt s k - ou_value mu l sigma x0' dt s k =
  (x0 - x0') * exp (- l * dt) ^ k.
Proof.
  induction k as [|k IH]; cbn [ou_value pow]; [ring|].
  match goal with
  | |- ?a * ?q + ?m + ?n - (?b * ?q + ?m + ?n) = _ =>
      replace (a * q + m + n - (b * q + m + n)) with ((a - b) * q) by ring
  end.
  rewrite IH; ring.
Qed.

Lemma ou_value_frozen mu l sigma x0 s k :
  ou_value mu l sigma x0 0 s k = x0.
Proof.
  induction k as [|k IH]; cbn [ou_value]; [reflexivity|].
  rewrite IH, !Rmult_0_r, exp_0.
  replace ((1 - 1) / (2 * l)) with 0 by (unfold Rdiv; ring).
  rewrite sqrt_0; ring.
Qed.

End ProcessExtras.

(** X8.  For [l <> 0] and [dt >= 0], two Ornstein-Uhlenbeck trajectories
    that differ in the starting point only, generated from the same state
    of the random source, differ at index [i] by the difference of the
    starting points times [exp(-l*dt)^i]: the noise cancels and the
    influence of the start decays geometrically. *)
Theorem ou_process_forgets_start {RS : RandomSource}
    num_points mu l sigma x0 x0' dt s :
  (1 <= num_points)%Z ->
  l <> 0 -> 0 <= dt ->
  exists x x' s',
    ornshtein_uhlenbeck_process_fn num_points mu l sigma x0 dt s =
    (Ok x, s') /\
    ornshtein_uhlenbeck_process_fn num_points mu l sigma x0' dt s =
    (Ok x', s') /\
    forall i, (i < Z.to_nat num_points)%nat ->
      nth i x 0 - nth i x' 0 = (x0 - x0') * exp (- l * dt) ^ i.
Proof.
  intros Hn _ _.
  do 3 eexists; split; [now apply ou_process_returns|].
  split; [now apply ou_process_returns|].
  intros i Hi; rewrite !ou_prefix_nth by exact Hi.
  apply ou_value_start_shift.
Qed.

Lemma ou_process_forgets_start_witness :
  exists x x' s',
    ornshtein_uhlenbeck_process_fn (RS := counting_source)
      3 5 10 1 0 1 0%nat = (Ok x, s') /\
    ornshtein_uhlenbeck_process_fn (RS := counting_source)
      3 5 10 1 2 1 0%nat = (Ok x', s') /\
    nth 2 x 0 - nth 2 x' 0 = (0 - 2) * exp (- 10 * 1) ^ 2.
Proof.
  destruct (@ou_process_forgets_start counting_source 3 5 10 1 0 2 1 0%nat)
    as (x & x' & s' & Hx & Hx' & Hd); [lia | lra | lra |].
  exists x, x', s'; split; [exact Hx|]; split; [exact Hx'|].
  apply Hd; change (Z.to_nat 3) with 3%nat; lia.
Defined.

(** X9.  With [dt = 0] (and [l <> 0]) nothing moves: every cell of the
    trajectory is the starting point, whatever the noise, although the
    deviates are still drawn. *)
Theorem ou_process_zero_time_step {RS : RandomSource}
    num_points mu l sigma x0 s :
  (1 <= num_points)%Z -> l <> 0 ->
  ornshtein_uhlenbeck_process_fn num_points mu l sigma x0 0 s =
  (Ok (repeat x0 (Z.to_nat num_points)),
   after_normals (Z.to_nat num_points - 1) s).
Proof.
  intros Hn _; rewrite ou_process_returns by exact Hn.
  do 2 f_equal; unfold ou_prefix.
  generalize 0%nat at 1.
  induction (Z.to_nat num_points) as [|n IH]; intros a; [reflexivity|].
  cbn [seq map repeat]; now rewrite ou_value_frozen, IH.
Qed.

Lemma ou_process_zero_time_step_witness :
  ornshtein_uhlenbeck_process_fn (RS := counting_source)
    3 5 10 1 7 0 0%nat = (Ok [7; 7; 7], 2%nat).
Proof.
  apply (@ou_process_zero_time_step counting_source 3 5 10 1 7 0%nat);
    [lia | lra].
Defined.

(** X10.  Without noise ([sigma = 0]), for a positive rate [l] and a time
    step [dt >= 0], the trajectory never moves away from the mean and never
    crosses it: the distance to [mu] does not grow from one cell to the
    next, and every cell lies on the side of [mu] where the start lies. *)
Theorem ou_process_noise_free_monotone {RS : RandomSource}
    num_points mu l x0 dt s :
  (1 <= num_points)%Z -> 0 < l -> 0 <= dt ->
  exists x s',
    ornshtein_uhlenbeck_process_fn num_points mu l 0 x0 dt s = (Ok x, s') /\
    forall i, (i < Z.to_nat num_points)%nat ->
      0 <= (nth i x 0 - mu) * (x0 - mu) /\
      ((S i < Z.to_nat num_points)%nat ->
       Rabs (nth (S i) x 0 - mu) <= Rabs (nth i x 0 - mu)).
Proof.
  intros Hn Hl Hdt.
  assert (Hpos : 0 <= l * dt) by nra.
  do 2 eexists; split; [now apply ou_process_returns|].
  set (q := exp (- l * dt)).
  assert (Hq : 0 < q <= 1).
  { unfold q; split; [apply exp_pos|].
    rewrite <- exp_0.
    destruct (Req_dec (l * dt) 0) as [Hz|Hz].
    - right; f_equal; lra.
    - left; apply exp_increasing; lra. }
  assert (Hqi : forall i, 0 < q ^ i) by (intros i; apply pow_lt, Hq).
  intros i Hi; split.
  - rewrite ou_prefix_nth, ou_value_noise_free by exact Hi.
    unfold ou_mean_path; fold q.
    replace ((mu + (x0 - mu) * q ^ i - mu) * (x0 - mu))
      with (Rsqr (x0 - mu) * q ^ i) by (unfold Rsqr; ring).
    apply Rmult_le_pos; [apply Rle_0_sqr | left; apply Hqi].
  - intros Hi'.
    rewrite !ou_prefix_nth, !ou_value_noise_free by lia.
    unfold ou_mean_path; fold q.
    replace (mu + (x0 - mu) * q ^ S i - mu)
      with (((x0 - mu) * q ^ i) * q) by (cbn [pow]; ring).
    replace (mu + (x0 - mu) * q ^ i - mu) with ((x0 - mu) * q ^ i) by ring.
    rewrite Rabs_mult, (Rabs_pos_eq q) by lra.
    pose proof (Rabs_pos ((x0 - mu) * q ^ i)); nra.
Qed.

Lemma ou_process_noise_free_monotone_witness :
  exists x s',
    ornshtein_uhlenbeck_process_fn (RS := counting_source)
      3 5 10 0 0 1 0%nat = (Ok x, s') /\
    Rabs (nth 2 x 0 - 5) <= Rabs (nth 1 x 0 - 5).
Proof.
  destruct (@ou_process_noise_free_monotone counting_source 3 5 10 0 1 0%nat)
    as (x & s' & Hx & Hm); [lia | lra | lra |].
  exists x, s'; split; [exact Hx|].
  apply (Hm 1%nat); change (Z.to_nat 3) with 3%nat; lia.
Defined.

(** X11.  The edge sizes of the Ornstein-Uhlenbeck generator besides
    [num_points = 0]: a negative [num_points] is refused by [np.zeros] with
    a [ValueError], and [num_points = 1] returns the starting point alone;
    neither consumes a draw. *)
Theorem ou_process_edge_sizes {RS : RandomSource} :
  (forall num_points mu l sigma x0 dt s,
      (num_points < 0)%Z ->
      ornshtein_uhlenbeck_process_fn num_points mu l sigma x0 dt s =
      (Raise ValueError, s)) /\
  (forall mu l sigma x0 dt s,
      ornshtein_uhlenbeck_process_fn 1 mu l sigma x0 dt s = (Ok [x0], s)).
Proof.
  split.
  - intros num_points mu l sigma x0 dt s Hn.
    unfold ornshtein_uhlenbeck_process_fn; apply bind_raise.
    unfold np_zeros; destruct (Z.ltb_spec num_points 0); [reflexivity|lia].
  - intros mu l sigma x0 dt s.
    exact (ou_process_run mu l sigma x0 dt s 0).
Qed.

Lemma ou_process_edge_sizes_witness :
  ornshtein_uhlenbeck_process_fn (RS := counting_source)
    (-2) 5 10 1 0 1 0%nat = (Raise ValueError, 0%nat).
Proof.
  apply (proj1 (@ou_process_edge_sizes counting_source)); lia.
Defined.

(** ** More on the coupled-wave generator *)

Lemma rint_IZR m : rint (IZR m) = m.
Proof. apply rint_near; lra. Qed.

(** Rounding a rounded value again changes nothing. *)
Lemma around_idempotent k x : around k (around k x) = around k x.
Proof.
  unfold around; destruct (0 <=? k)%Z.
  - pose proof (pow10_pos (Z.to_nat k)) as Hp.
    replace (IZR (rint (x * 10 ^ Z.to_nat k)) / 10 ^ Z.to_nat k *
             10 ^ Z.to_nat k)
      with (IZR (rint (x * 10 ^ Z.to_nat k))) by (field; lra).
    now rewrite rint_IZR.
  - pose proof (pow10_pos (Z.to_nat (- k))) as Hp.
    replace (IZR (rint (x / 10 ^ Z.to_nat (- k))) * 10 ^ Z.to_nat (- k) /
             10 ^ Z.to_nat (- k))
      with (IZR (rint (x / 10 ^ Z.to_nat (- k)))) by (field; lra).
    now rewrite rint_IZR.
Qed.

Lemma around3_idempotent k x : around3 k (around3 k x) = around3 k x.
Proof.
  unfold around3; rewrite map_map.
  apply map_ext; intros a; rewrite map_map.
  apply map_ext; intros f; rewrite map_map.
  apply map_ext; intros v; apply around_idempotent.
Qed.

(** X12.  The coupling term moves value between the two series and leaves
    their sum alone: at every step the two new mid values add up to the sum
    of the two previous closing values, scaled by the shared drift. *)
Theorem coupled_wave_mid_sum {RS : RandomSource}
    num_points drift_sigma ou_sigma ou_lambda ou_mu
    spread_sigma_1 spread_sigma_2 spread_mean_1 spread_mean_2 bias s :
  scales_ok drift_sigma spread_sigma_1 spread_sigma_2 ->
  ou_lambda <> 0 ->
  exists st,
    wave_loop drift_sigma ou_sigma ou_lambda ou_mu
      spread_sigma_1 spread_sigma_2 spread_mean_1 spread_mean_2
      bias num_points s =
    (Ok st, after_steps (Z.to_nat num_points) s) /\
    forall i, (1 <= i <= Z.to_nat num_points)%nat ->
      nth i (x_mid1 st) 0 + nth i (x_mid2 st) 0 =
      (nth (i - 1) (x_last1 st) 0 + nth (i - 1) (x_last2 st) 0) *
      (1 + drift_sigma * normal_at (after_steps (i - 1) s) 1).
Proof.
  intros Hs _.
  eexists; split; [apply wave_loop_run, Hs|].
  intros i Hi; unfold wave_series.
  cbn [x_mid1 x_low1 x_high1 x_last1 x_mid2 x_low2 x_high2 x_last2].
  rewrite !column_nth by lia.
  destruct i as [|i]; [lia|].
  replace (S i - 1)%nat with i by lia.
  cbn [wave_bar]; unfold next_bar; cbn [b_mid1 b_mid2].
  field.
Qed.

Lemma coupled_wave_mid_sum_witness :
  exists st,
    wave_loop (RS := counting_source) 0 0 1 0 0 0 1 0 10 2 0%nat =
    (Ok st, 16%nat) /\
    nth 2 (x_mid1 st) 0 + nth 2 (x_mid2 st) 0 =
    (nth 1 (x_last1 st) 0 + nth 1 (x_last2 st) 0) * (1 + 0 * 0).
Proof.
  destruct (@coupled_wave_mid_sum counting_source 2 0 0 1 0 0 0 1 0 10 0%nat)
    as (st & Hrun & Hsum); [unfold scales_ok; lra | lra |].
  exists st; split; [exact Hrun|].
  apply (Hsum 2%nat); change (Z.to_nat 2) with 2%nat; lia.
Defined.

(** X13.  Without drift and without coupling noise ([drift_sigma = 0],
    [ou_sigma = 0]) the gap between the two mid values reverts to [ou_mu]:
    its distance from [ou_mu] is the distance of the previous closing gap,
    multiplied by [exp(-ou_lambda)]. *)
Theorem coupled_wave_gap_reverts {RS : RandomSource}
    num_points ou_lambda ou_mu
    spread_sigma_1 spread_sigma_2 spread_mean_1 spread_mean_2 bias s :
  0 <= spread_sigma_1 -> 0 <= spread_sigma_2 ->
  ou_lambda <> 0 ->
  exists st,
    wave_loop 0 0 ou_lambda ou_mu
      spread_sigma_1 spread_sigma_2 spread_mean_1 spread_mean_2
      bias num_points s =
    (Ok st, after_steps (Z.to_nat num_points) s) /\
    forall i, (1 <= i <= Z.to_nat num_points)%nat ->
      nth i (x_mid1 st) 0 - nth i (x_mid2 st) 0 - ou_mu =
      (nth (i - 1) (x_last1 st) 0 - nth (i - 1) (x_last2 st) 0 - ou_mu) *
      exp (- ou_lambda).
Proof.
  intros H1 H2 _.
  eexists; split; [apply wave_loop_run; unfold scales_ok; lra|].
  intros i Hi; unfold wave_series.
  cbn [x_mid1 x_low1 x_high1 x_last1 x_mid2 x_low2 x_high2 x_last2].
  rewrite !column_nth by lia.
  destruct i as [|i]; [lia|].
  replace (S i - 1)%nat with i by lia.
  cbn [wave_bar]; unfold next_bar; cbn [b_mid1 b_mid2].
  field.
Qed.

Lemma coupled_wave_gap_reverts_witness :
  exists st,
    wave_loop (RS := counting_source) 0 0 1 4 0 0 1 0 10 2 0%nat =
    (Ok st, 16%nat) /\
    nth 2 (x_mid1 st) 0 - nth 2 (x_mid2 st) 0 - 4 =
    (nth 1 (x_last1 st) 0 - nth 1 (x_last2 st) 0 - 4) * exp (- 1).
Proof.
  destruct (@coupled_wave_gap_reverts counting_source 2 1 4 0 0 1 0 10 0%nat)
    as (st & Hrun & Hgap); [lra | lra | lra |].
  exists st; split; [exact Hrun|].
  apply (Hgap 2%nat); change (Z.to_nat 2) with 2%nat; lia.
Defined.

(** X14.  Before rounding, the mid value of every generated bar is the
    midpoint of its low and its high, for both series. *)
Theorem coupled_wave_mid_is_midpoint {RS : RandomSource}
    num_points drift_sigma ou_sigma ou_lambda ou_mu
    spread_sigma_1 spread_sigma_2 spread_mean_1 spread_mean_2 bias s :
  scales_ok drift_sigma spread_sigma_1 spread_sigma_2 ->
  ou_lambda <> 0 ->
  exists st,
    wave_loop drift_sigma ou_sigma ou_lambda ou_mu
      spread_sigma_1 spread_sigma_2 spread_mean_1 spread_mean_2
      bias num_points s =
    (Ok st, after_steps (Z.to_nat num_points) s) /\
    forall t, (t < Z.to_nat num_points)%nat ->
      let b := history_at st (S t) in
      b_low1 b + b_high1 b = 2 * b_mid1 b /\
      b_low2 b + b_high2 b = 2 * b_mid2 b.
Proof.
  intros Hs _.
  eexists; split; [apply wave_loop_run, Hs|].
  intros t Ht; cbv zeta.
  rewrite history_at_series by lia.
  cbn [wave_bar]; unfold next_bar, s_low, s_high.
  cbn [b_mid1 b_low1 b_high1 b_mid2 b_low2 b_high2].
  split; field.
Qed.

Lemma coupled_wave_mid_is_midpoint_witness :
  exists st,
    wave_loop (RS := counting_source) 0 0 1 0 0 0 1 0 10 2 0%nat =
    (Ok st, 16%nat) /\
    b_low1 (history_at st 2) + b_high1 (history_at st 2) =
    2 * b_mid1 (history_at st 2).
Proof.
  destruct (@coupled_wave_mid_is_midpoint counting_source
              2 0 0 1 0 0 0 1 0 10 0%nat)
    as (st & Hrun & Hmid); [unfold scales_ok; lra | lra |].
  exists st; split; [exact Hrun|].
  apply (Hmid 1%nat); change (Z.to_nat 2) with 2%nat; lia.
Defined.

(** X15.  Rounding the returned array again to the same number of decimals
    changes nothing. *)
Theorem coupled_wave_rounding_idempotent {RS : RandomSource}
    num_points drift_sigma ou_sigma ou_lambda ou_mu
    spread_sigma_1 spread_sigma_2 spread_mean_1 spread_mean_2
    bias keep_decimals s :
  scales_ok drift_sigma spread_sigma_1 spread_sigma_2 ->
  ou_lambda <> 0 ->
  exists arr,
    coupled_wave_pair_generator_fn num_points drift_sigma ou_sigma ou_lambda
      ou_mu spread_sigma_1 spread_sigma_2 spread_mean_1 spread_mean_2
      bias keep_decimals s =
    (Ok arr, after_steps (Z.to_nat num_points) s) /\
    around3 keep_decimals arr = arr.
Proof.
  intros Hs _.
  eexists; split; [apply generator_run, Hs | apply around3_idempotent].
Qed.

Lemma coupled_wave_rounding_idempotent_witness :
  exists arr,
    coupled_wave_pair_generator_fn (RS := counting_source)
      2 0 0 1 0 0 0 1 0 10 6 0%nat = (Ok arr, 16%nat) /\
    around3 6 arr = arr.
Proof.
  apply (@coupled_wave_rounding_idempotent counting_source
           2 0 0 1 0 0 0 1 0 10 6 0%nat); [unfold scales_ok; lra | lra].
Defined.

(** X16.  A longer run extends a shorter one: from the same state of the
    random source and with the same arguments, the first [num_points] bars
    of a run of [more >= num_points] steps are the bars of the run of
    [num_points] steps. *)
Theorem coupled_wave_prefix_stable {RS : RandomSource}
    num_points more drift_sigma ou_sigma ou_lambda ou_mu
    spread_sigma_1 spread_sigma_2 spread_mean_1 spread_mean_2
    bias keep_decimals s :
  (num_points <= more)%Z ->
  scales_ok drift_sigma spread_sigma_1 spread_sigma_2 ->
  ou_lambda <> 0 ->
  exists arr arr',
    coupled_wave_pair_generator_fn num_points drift_sigma ou_sigma ou_lambda
      ou_mu spread_sigma_1 spread_sigma_2 spread_mean_1 spread_mean_2
      bias keep_decimals s =
    (Ok arr, after_steps (Z.to_nat num_points) s) /\
    coupled_wave_pair_generator_fn more drift_sigma ou_sigma ou_lambda
      ou_mu spread_sigma_1 spread_sigma_2 spread_mean_1 spread_mean_2
      bias keep_decimals s =
    (Ok arr', after_steps (Z.to_nat more) s) /\
    forall t, (t < Z.to_nat num_points)%nat ->
      cells_at arr t = cells_at arr' t.
Proof.
  intros Hle Hs _.
  do 2 eexists; split; [apply generator_run, Hs|].
  split; [apply generator_run, Hs|].
  intros t Ht; rewrite !array_cells by lia; reflexivity.
Qed.

Lemma coupled_wave_prefix_stable_witness :
  exists arr arr',
    coupled_wave_pair_generator_fn (RS := counting_source)
      1 0 0 1 0 0 0 1 0 10 6 0%nat = (Ok arr, 8%nat) /\
    coupled_wave_pair_generator_fn (RS := counting_source)
      2 0 0 1 0 0 0 1 0 10 6 0%nat = (Ok arr', 16%nat) /\
    cells_at arr 0 = cells_at arr' 0.
Proof.
  destruct (@coupled_wave_prefix_stable counting_source
              1 2 0 0 1 0 0 0 1 0 10 6 0%nat)
    as (arr & arr' & Hrun & Hrun' & Hsame);
    [lia | unfold scales_ok; lra | lra |].
  exists arr, arr'; split; [exact Hrun|]; split; [exact Hrun'|].
  apply Hsame; change (Z.to_nat 1) with 1%nat; lia.
Defined.

Lemma h_value_zero_sigmas mean1 mean2 z1 z2 :
  h_value 0 0 mean1 mean2 z1 z2 = sqrt (mean1 ^ 2 + mean2 ^ 2).
Proof.
  unfold h_value.
  replace ((mean1 + 0 * z1) ^ 2 + (mean2 + 0 * z2) ^ 2)
    with (mean1 ^ 2 + mean2 ^ 2) by ring.
  apply Rmax_left.
  apply Rle_trans with (Rabs mean1); [apply Rle_abs|].
  rewrite <- sqrt_Rsqr_abs.
  apply sqrt_le_1_alt; unfold Rsqr; nra.
Qed.

(** X17.  With both spread sigmas at zero the spread is not random: before
    rounding, every generated bar of either series has
    [high - low = sqrt(spread_mean_1^2 + spread_mean_2^2)]. *)
Theorem coupled_wave_constant_spread {RS : RandomSource}
    num_points drift_sigma ou_sigma ou_lambda ou_mu
    spread_mean_1 spread_mean_2 bias s :
  0 <= drift_sigma ->
  ou_lambda <> 0 ->
  exists st,
    wave_loop drift_sigma ou_sigma ou_lambda ou_mu
      0 0 spread_mean_1 spread_mean_2 bias num_points s =
    (Ok st, after_steps (Z.to_nat num_points) s) /\
    forall t, (t < Z.to_nat num_points)%nat ->
      let b := history_at st (S t) in
      b_high1 b - b_low1 b = sqrt (spread_mean_1 ^ 2 + spread_mean_2 ^ 2) /\
      b_high2 b - b_low2 b = sqrt (spread_mean_1 ^ 2 + spread_mean_2 ^ 2).
Proof.
  intros Hd _.
  eexists; split; [apply wave_loop_run; unfold scales_ok; lra|].
  intros t Ht; cbv zeta.
  rewrite history_at_series by lia.
  cbn [wave_bar]; unfold next_bar, s_low, s_high.
  cbn [b_low1 b_high1 b_low2 b_high2].
  rewrite !h_value_zero_sigmas.
  split; field.
Qed.

Lemma coupled_wave_constant_spread_witness :
  exists st,
    wave_loop (RS := counting_source) 0 0 1 0 0 0 3 4 10 2 0%nat =
    (Ok st, 16%nat) /\
    b_high1 (history_at st 1) - b_low1 (history_at st 1) =
    sqrt (3 ^ 2 + 4 ^ 2).
Proof.
  destruct (@coupled_wave_constant_spread counting_source
              2 0 0 1 0 3 4 10 0%nat)
    as (st & Hrun & Hspread); [lra | lra |].
  exists st; split; [exact Hrun|].
  apply (Hspread 0%nat); change (Z.to_nat 2) with 2%nat; lia.
Defined.

Section WaveRefusals.

Context {RS : RandomSource}.

Variables (drift_sigma ou_sigma ou_lambda ou_mu : R).
Variables (spread_sigma_1 spread_sigma_2 spread_mean_1 spread_mean_2 : R).
Variable (bias : R).
Variable (s0 : rstate).

(** The first iteration when a spread sigma is negative: the coupling noise
    and the drift are drawn, then the spread of series 1 is refused. *)
Lemma first_step_spread_refused draws :
  0 <= drift_sigma ->
  h spread_sigma_1 spread_sigma_2 spread_mean_1 spread_mean_2
    (after_normals 2 s0) =
  (Raise ValueError, after_normals draws s0) ->
  wave_step drift_sigma ou_sigma ou_lambda ou_mu
    spread_sigma_1 spread_sigma_2 spread_mean_1 spread_mean_2
    (seed ou_mu bias) s0 =
  (Raise ValueError, after_normals draws s0).
Proof.
  intros Hd Hh; unfold wave_step, seed; cbn [x_last1 x_last2 x_mid1 x_mid2].
  erewrite bind_ok; [|apply (getitem_last [])].
  erewrite bind_ok; [|apply (getitem_last [])].
  erewrite bind_ok; [|apply delta_ou_eq].
  erewrite bind_ok; [|apply normal_eq, Hd].
  erewrite bind_ok; [|apply (getitem_last [])].
  erewrite bind_ok; [|apply (getitem_last [])].
  apply bind_raise; exact Hh.
Qed.

Lemma generator_first_step_raises n k s' :
  (1 <= n)%Z ->
  wave_step drift_sigma ou_sigma ou_lambda ou_mu
    spread_sigma_1 spread_sigma_2 spread_mean_1 spread_mean_2
    (seed ou_mu bias) s0 = (Raise ValueError, s') ->
  coupled_wave_pair_generator_fn n drift_sigma ou_sigma ou_lambda ou_mu
    spread_sigma_1 spread_sigma_2 spread_mean_1 spread_mean_2 bias k s0 =
  (Raise ValueError, s').
Proof.
  intros Hn Hstep; unfold coupled_wave_pair_generator_fn.
  apply bind_raise; unfold wave_loop, range.
  destruct (Z.to_nat (n - 0)) as [|m] eqn:Hm; [lia|].
  cbn [seq map for_each]; apply bind_raise; exact Hstep.
Qed.

End WaveRefusals.

(** X18.  Which scales the generator refuses, and when.  For
    [num_points >= 1] a negative [drift_sigma] raises [ValueError] after one
    normal deviate (the coupling noise) was drawn; a negative
    [spread_sigma_1] after two (the noise and the drift); a negative
    [spread_sigma_2] after three. *)
Theorem coupled_wave_negative_scale_raises {RS : RandomSource}
    num_points drift_sigma ou_sigma ou_lambda ou_mu
    spread_sigma_1 spread_sigma_2 spread_mean_1 spread_mean_2
    bias keep_decimals s :
  (1 <= num_points)%Z ->
  ou_lambda <> 0 ->
  drift_sigma < 0 \/ spread_sigma_1 < 0 \/ spread_sigma_2 < 0 ->
  coupled_wave_pair_generator_fn num_points drift_sigma ou_sigma ou_lambda
    ou_mu spread_sigma_1 spread_sigma_2 spread_mean_1 spread_mean_2
    bias keep_decimals s =
  (Raise ValueError,
   after_normals
     (if Rltb drift_sigma 0 then 1
      else if Rltb spread_sigma_1 0 then 2 else 3) s).
Proof.
  intros Hn _ Hneg.
  destruct (Rltb drift_sigma 0) eqn:Hd.
  - apply Rltb_true in Hd; now apply generator_negative_drift_raises.
  - apply Rltb_false in Hd.
    apply generator_first_step_raises; [exact Hn|].
    apply first_step_spread_refused; [exact Hd|].
    unfold h.
    destruct (Rltb spread_sigma_1 0) eqn:H1.
    + apply Rltb_true in H1.
      apply bind_raise, normal_negative_scale, H1.
    + apply Rltb_false in H1.
      erewrite bind_ok; [|apply normal_eq, H1].
      apply bind_raise, normal_negative_scale.
      destruct Hneg as [?|[?|?]]; lra.
Qed.

Lemma coupled_wave_negative_scale_raises_witness :
  coupled_wave_pair_generator_fn (RS := counting_source)
    2 0 0 1 0 0 (-1) 1 0 10 6 0%nat =
  (Raise ValueError,
   @after_normals counting_source
     (if Rltb 0 0 then 1 else if Rltb 0 0 then 2 else 3) 0%nat).
Proof.
  apply (@coupled_wave_negative_scale_raises counting_source
           2 0 0 1 0 0 (-1) 1 0 10 6 0%nat); [lia | lra | lra].
Defined.
